(** * The SDH hand node ([schunk_sdh_ros/ros/src/sdh_only.cpp])

    A shallow embedding of the class [SdhNode]: its member variables, the
    vendor device [SDH::cSDH] it drives, its service, topic and action
    callbacks and the periodic [updateSdh].

    Modelling conventions.
    - A C++ [double] is a rational number; every arithmetic operation on
      doubles goes through one rounding operator [rnd], a variable of the
      development (exact arithmetic is [rnd := unrounded]).
    - The device is a deterministic oracle: what a call returns, or the
      exception it throws, is a function of the calls made before it.
    - A member function is a computation on a [World] (the members plus the
      log of what the node did: device calls, published messages, error log
      lines, action results) that ends in an [Outcome]: it returns, a
      [cSDHLibraryException] leaves it, it indexes a vector out of range, or
      it is still inside a wait loop when the schedule it was given ends. *)

From Stdlib Require Import ZArith QArith Qabs Qround Qpower String List Bool Lia Lqa.
From stdpp Require Import base option list gmap strings.
Import ListNotations.

Local Open Scope string_scope.
Local Open Scope Z_scope.
Local Open Scope list_scope.

(** ** Doubles *)

Abbreviation double := Q.

(** [pi_ = 3.1415926;] in the constructor. *)
Definition pi_ : double := 3.1415926%Q.

(** ** The device [SDH::cSDH] *)

(** [SDH::cSDH::eControllerType]. *)
Inductive eControllerType := eCT_POSE | eCT_VELOCITY.

(** The member functions of [cSDH] the node calls, with their arguments.
    [sdh_->All] and the vectors [all_real_axes], [all_temperature_sensors]
    are constants of the device and are left implicit. *)
Inductive DevCall :=
| OpenRS232 (port : Z) (baudrate : Z) (timeout : double) (device : string)
| OpenCAN_PEAK (baudrate : Z) (timeout : double) (id_read id_write : Z) (device : string)
| OpenTCP (host : string) (port : Z) (timeout : double)
| OpenCAN_ESD (net : Z) (baudrate : Z) (timeout : double) (id_read id_write : Z)
| Close
| Stop
| EmergencyStop
| SetController (ct : eControllerType)
| SetAxisEnable (state : double)
| SetAxisMotorCurrent (current : double)
| SetAxisTargetAngle (axes : list Z) (angles : list double)
| SetAxisTargetVelocity (axes : list Z) (velocities : list double)
| MoveHand (sequ : bool)
| GetAxisMaxVelocity
| GetAxisActualAngle (axes : list Z)
| GetAxisActualVelocity (axes : list Z)
| GetAxisActualState (axes : list Z)
| GetTemperature.

(** What a call does: it returns a value or throws a
    [cSDHLibraryException*] whose [what()] is the string. *)
Inductive Reply (A : Type) :=
| Returns (a : A)
| Throws (what : string).
Arguments Returns {A} a.
Arguments Throws {A} what.

(** The device: the reply to a call, given the calls made so far (oldest
    first).  Commands return nothing, the [Get...] accessors a
    [std::vector<double>], [GetAxisActualState] a vector of
    [eAxisState]. *)
Record cSDH := {
  sdh_command : list DevCall -> DevCall -> Reply unit;
  sdh_doubles : list DevCall -> DevCall -> Reply (list double);
  sdh_states  : list DevCall -> DevCall -> Reply (list Z)
}.

(** ** Messages *)

(** [std_srvs::Trigger::Response] and [cob_srvs::SetString::Response]. *)
Record Response := { success : bool; message : string }.

(** A fresh response, as the service layer hands it to a callback. *)
Definition fresh_response : Response := {| success := false; message := "" |}.

(** The part of [control_msgs::FollowJointTrajectoryGoal] the node reads:
    [trajectory.joint_names] and, for each element of [trajectory.points],
    its [positions]. *)
Record Goal := {
  joint_names : list string;
  points : list (list double)
}.

(** What the node does that the outside can see. *)
Inductive Event :=
| Call (c : DevCall) (pending : bool)
    (* a call into the device; [pending] is the value [hasNewGoal_] has
       while the call is in flight *)
| RosError (text : string)
| RosWarn (text : string)
| PubJointState (name : list string) (position velocity effort : list double)
| PubControllerState (names : list string)
    (desired_positions desired_velocities : list double)
    (actual_positions actual_velocities : list double)
    (error_positions error_velocities : list double)
| PubTemperature (name : list string) (temperature : list double)
| PubDiagnostics (level : Z) (name message : string)
| SetAborted
| SetSucceeded.

(** ** The members of [SdhNode] *)

Record SdhNode := {
  nh_namespace : string;               (* nh_.getNamespace() *)
  action_name_ : string;
  state_ : list Z;                     (* std::vector<eAxisState> *)
  sdhdevicetype_ : string;
  sdhdevicestring_ : string;
  sdhdevicenum_ : Z;
  baudrate_ : Z;
  id_read_ : Z;
  id_write_ : Z;
  sdh_port_ : Z;
  timeout_ : double;
  isInitialized_ : bool;
  isError_ : bool;
  DOF_ : nat;
  joint_names_ : list string;
  axes_ : list Z;
  targetAngles_ : list double;         (* in degrees *)
  velocities_ : list double;
  hasNewGoal_ : bool;
  operationMode_ : string;
  max_velocities_ : list double
}.

Record World := {
  node : SdhNode;
  log : list Event
}.

(** Assignments to the members that change after [init]. *)
Definition with_state_ (v : list Z) (n : SdhNode) : SdhNode :=
  {| nh_namespace := nh_namespace n; action_name_ := action_name_ n;
     state_ := v;
     sdhdevicetype_ := sdhdevicetype_ n; sdhdevicestring_ := sdhdevicestring_ n;
     sdhdevicenum_ := sdhdevicenum_ n; baudrate_ := baudrate_ n;
     id_read_ := id_read_ n; id_write_ := id_write_ n; sdh_port_ := sdh_port_ n;
     timeout_ := timeout_ n; isInitialized_ := isInitialized_ n;
     isError_ := isError_ n; DOF_ := DOF_ n; joint_names_ := joint_names_ n;
     axes_ := axes_ n; targetAngles_ := targetAngles_ n;
     velocities_ := velocities_ n; hasNewGoal_ := hasNewGoal_ n;
     operationMode_ := operationMode_ n; max_velocities_ := max_velocities_ n |}.

Definition with_isInitialized_ (v : bool) (n : SdhNode) : SdhNode :=
  {| nh_namespace := nh_namespace n; action_name_ := action_name_ n;
     state_ := state_ n;
     sdhdevicetype_ := sdhdevicetype_ n; sdhdevicestring_ := sdhdevicestring_ n;
     sdhdevicenum_ := sdhdevicenum_ n; baudrate_ := baudrate_ n;
     id_read_ := id_read_ n; id_write_ := id_write_ n; sdh_port_ := sdh_port_ n;
     timeout_ := timeout_ n; isInitialized_ := v;
     isError_ := isError_ n; DOF_ := DOF_ n; joint_names_ := joint_names_ n;
     axes_ := axes_ n; targetAngles_ := targetAngles_ n;
     velocities_ := velocities_ n; hasNewGoal_ := hasNewGoal_ n;
     operationMode_ := operationMode_ n; max_velocities_ := max_velocities_ n |}.

Definition with_targetAngles_ (v : list double) (n : SdhNode) : SdhNode :=
  {| nh_namespace := nh_namespace n; action_name_ := action_name_ n;
     state_ := state_ n;
     sdhdevicetype_ := sdhdevicetype_ n; sdhdevicestring_ := sdhdevicestring_ n;
     sdhdevicenum_ := sdhdevicenum_ n; baudrate_ := baudrate_ n;
     id_read_ := id_read_ n; id_write_ := id_write_ n; sdh_port_ := sdh_port_ n;
     timeout_ := timeout_ n; isInitialized_ := isInitialized_ n;
     isError_ := isError_ n; DOF_ := DOF_ n; joint_names_ := joint_names_ n;
     axes_ := axes_ n; targetAngles_ := v;
     velocities_ := velocities_ n; hasNewGoal_ := hasNewGoal_ n;
     operationMode_ := operationMode_ n; max_velocities_ := max_velocities_ n |}.

Definition with_velocities_ (v : list double) (n : SdhNode) : SdhNode :=
  {| nh_namespace := nh_namespace n; action_name_ := action_name_ n;
     state_ := state_ n;
     sdhdevicetype_ := sdhdevicetype_ n; sdhdevicestring_ := sdhdevicestring_ n;
     sdhdevicenum_ := sdhdevicenum_ n; baudrate_ := baudrate_ n;
     id_read_ := id_read_ n; id_write_ := id_write_ n; sdh_port_ := sdh_port_ n;
     timeout_ := timeout_ n; isInitialized_ := isInitialized_ n;
     isError_ := isError_ n; DOF_ := DOF_ n; joint_names_ := joint_names_ n;
     axes_ := axes_ n; targetAngles_ := targetAngles_ n;
     velocities_ := v; hasNewGoal_ := hasNewGoal_ n;
     operationMode_ := operationMode_ n; max_velocities_ := max_velocities_ n |}.

Definition with_hasNewGoal_ (v : bool) (n : SdhNode) : SdhNode :=
  {| nh_namespace := nh_namespace n; action_name_ := action_name_ n;
     state_ := state_ n;
     sdhdevicetype_ := sdhdevicetype_ n; sdhdevicestring_ := sdhdevicestring_ n;
     sdhdevicenum_ := sdhdevicenum_ n; baudrate_ := baudrate_ n;
     id_read_ := id_read_ n; id_write_ := id_write_ n; sdh_port_ := sdh_port_ n;
     timeout_ := timeout_ n; isInitialized_ := isInitialized_ n;
     isError_ := isError_ n; DOF_ := DOF_ n; joint_names_ := joint_names_ n;
     axes_ := axes_ n; targetAngles_ := targetAngles_ n;
     velocities_ := velocities_ n; hasNewGoal_ := v;
     operationMode_ := operationMode_ n; max_velocities_ := max_velocities_ n |}.

Definition with_operationMode_ (v : string) (n : SdhNode) : SdhNode :=
  {| nh_namespace := nh_namespace n; action_name_ := action_name_ n;
     state_ := state_ n;
     sdhdevicetype_ := sdhdevicetype_ n; sdhdevicestring_ := sdhdevicestring_ n;
     sdhdevicenum_ := sdhdevicenum_ n; baudrate_ := baudrate_ n;
     id_read_ := id_read_ n; id_write_ := id_write_ n; sdh_port_ := sdh_port_ n;
     timeout_ := timeout_ n; isInitialized_ := isInitialized_ n;
     isError_ := isError_ n; DOF_ := DOF_ n; joint_names_ := joint_names_ n;
     axes_ := axes_ n; targetAngles_ := targetAngles_ n;
     velocities_ := velocities_ n; hasNewGoal_ := hasNewGoal_ n;
     operationMode_ := v; max_velocities_ := max_velocities_ n |}.

Definition with_max_velocities_ (v : list double) (n : SdhNode) : SdhNode :=
  {| nh_namespace := nh_namespace n; action_name_ := action_name_ n;
     state_ := state_ n;
     sdhdevicetype_ := sdhdevicetype_ n; sdhdevicestring_ := sdhdevicestring_ n;
     sdhdevicenum_ := sdhdevicenum_ n; baudrate_ := baudrate_ n;
     id_read_ := id_read_ n; id_write_ := id_write_ n; sdh_port_ := sdh_port_ n;
     timeout_ := timeout_ n; isInitialized_ := isInitialized_ n;
     isError_ := isError_ n; DOF_ := DOF_ n; joint_names_ := joint_names_ n;
     axes_ := axes_ n; targetAngles_ := targetAngles_ n;
     velocities_ := velocities_ n; hasNewGoal_ := hasNewGoal_ n;
     operationMode_ := operationMode_ n; max_velocities_ := v |}.

(** ** Computations *)

Inductive Outcome (A : Type) :=
| Done (a : A) (w : World)          (* the function returned [a] *)
| Thrown (what : string) (w : World) (* an exception left the function *)
| Undefined (w : World)             (* [operator[]] out of range *)
| Waiting (w : World).              (* still in a wait loop *)
Arguments Done {A} a w.
Arguments Thrown {A} what w.
Arguments Undefined {A} w.
Arguments Waiting {A} w.

Definition world_of {A} (o : Outcome A) : World :=
  match o with
  | Done _ w | Thrown _ w | Undefined w | Waiting w => w
  end.

Definition M (A : Type) : Type := World -> Outcome A.

Definition ret {A} (a : A) : M A := fun w => Done a w.

Definition bind {A B} (m : M A) (k : A -> M B) : M B := fun w =>
  match m w with
  | Done a w' => k a w'
  | Thrown e w' => Thrown e w'
  | Undefined w' => Undefined w'
  | Waiting w' => Waiting w'
  end.

Declare Scope sdh_scope.
Delimit Scope sdh_scope with sdh.
Notation "x <- m ;; k" := (bind m (fun x => k))
  (at level 100, m at next level, right associativity) : sdh_scope.
Notation "m ;; k" := (bind m (fun _ => k))
  (at level 100, right associativity) : sdh_scope.

Open Scope sdh_scope.

Definition get {A} (f : SdhNode -> A) : M A := fun w => Done (f (node w)) w.

Definition modify (f : SdhNode -> SdhNode) : M unit := fun w =>
  Done tt {| node := f (node w); log := log w |}.

Definition emit (e : Event) : M unit := fun w =>
  Done tt {| node := node w; log := log w ++ [e] |}.

Definition undefined {A} : M A := fun w => Undefined w.

Definition waiting {A} : M A := fun w => Waiting w.

(** [try { m } catch (SDH::cSDHLibraryException* e) { h e->what() }]. *)
Definition try_catch {A} (m : M A) (h : string -> M A) : M A := fun w =>
  match m w with
  | Thrown e w' => h e w'
  | o => o
  end.

(** [v[i]] and [v[i] = x] on a [std::vector]: defined only in range. *)
Definition at_ {A} (v : list A) (i : nat) : M A :=
  match v !! i with
  | Some x => ret x
  | None => undefined
  end.

Definition store {A} (v : list A) (i : nat) (x : A) : M (list A) :=
  if (i <? length v)%nat then ret (<[i:=x]> v) else undefined.

(** [v.resize(n)] on a fresh or shorter vector pads with zeros. *)
Definition resize_ {A} (zero : A) (n : nat) (v : list A) : list A :=
  take n v ++ replicate (n - length v) zero.

Definition ROS_ERROR (text : string) : M unit := emit (RosError text).
Definition ROS_WARN (text : string) : M unit := emit (RosWarn text).

(** The device calls the node has made so far, oldest first. *)
Definition calls_of (l : list Event) : list DevCall :=
  omap (fun e => match e with Call c _ => Some c | _ => None end) l.

(** Modelled from the spec: [SDH::ToRange] of the vendor header
    [schunk_sdh/util.h], which is not part of the sources at hand; the
    "symmetric range clamp" of a value to the closed interval
    [[lo, hi]]. *)
Definition ToRange (v lo hi : double) : double :=
  if Qlt_le_dec v lo then lo
  else if Qlt_le_dec hi v then hi
  else v.

(** The dictionary of [executeCB]: [dict[name]] is [operator[]] of a
    [std::map<std::string, int>], which yields 0 for a missing key. *)
Definition dict_at (dict : gmap string nat) (name : string) : nat :=
  default 0%nat (dict !! name).

(** [for (idx = 0; idx < joint_names.size(); idx++) dict[joint_names[idx]] = idx;] *)
Definition make_dict (names : list string) : gmap string nat :=
  foldl (fun dict '(idx, name) => <[name := idx]> dict) ∅ (imap pair names).

(** The [for] loop over [state_] in [executeCB]. *)
Definition scan_states (st : list Z) (finished : bool) : bool :=
  foldl (fun _ s => if s =? 0 then true else false) finished st.

(** [const std::vector<std::string> SdhNode::temperature_names_]. *)
Definition temperature_names_ : list string :=
  ["root"; "proximal_finger_1"; "distal_finger_1";
   "proximal_finger_2"; "distal_finger_2";
   "proximal_finger_3"; "distal_finger_3";
   "controller"; "pcb"].

(** ** Start-up *)

(** The parameters [init] reads from the parameter server; [None] is a
    parameter that is not set. *)
Record Params := {
  p_sdhdevicetype : option string;
  p_sdhdevicestring : option string;
  p_sdhdevicenum : option Z;
  p_sdhport : option Z;
  p_baudrate : option Z;
  p_timeout : option double;
  p_id_read : option Z;
  p_id_write : option Z;
  p_joint_names : option (list string);
  p_OperationMode : option string
}.

(** The constructor [SdhNode(std::string name)] followed by [bool init()]:
    the members when [init] returns true, [None] when it returns false
    (parameter [joint_names] not set). *)
Definition init (name ns : string) (p : Params) : option SdhNode :=
  match p_joint_names p with
  | None => None
  | Some names =>
      let dof := length names in
      Some {| nh_namespace := ns;
              action_name_ := name;
              state_ := replicate dof 0;
              sdhdevicetype_ := default "TCP" (p_sdhdevicetype p);
              sdhdevicestring_ := default "192.168.1.42" (p_sdhdevicestring p);
              sdhdevicenum_ := default 0 (p_sdhdevicenum p);
              baudrate_ := default 1000000 (p_baudrate p);
              id_read_ := default 43 (p_id_read p);
              id_write_ := default 42 (p_id_write p);
              sdh_port_ := default 23 (p_sdhport p);
              timeout_ := default 0.04%Q (p_timeout p);
              isInitialized_ := false;
              isError_ := false;
              DOF_ := dof;
              joint_names_ := names;
              axes_ := Z.of_nat <$> seq 0 dof;
              targetAngles_ := [];
              velocities_ := replicate dof 0%Q;
              hasNewGoal_ := false;
              operationMode_ := default "position" (p_OperationMode p);
              max_velocities_ := [] |}
  end.

Definition start (n : SdhNode) : World := {| node := n; log := [] |}.

(** ** Operations of the two threads *)

(** What the main thread runs: [updateSdh] once per iteration of the loop
    in [main], and the service and topic callbacks of [ros::spinOnce()].
    The service [recover] is bound to [srvCallback_Init]. *)
Inductive MainOp :=
| Tick
| SrvInit
| SrvStop
| SrvRecover
| SrvSetOperationMode (data : string)
| SrvEmergencyStop
| SrvDisconnect
| SrvMotorOn
| SrvMotorOff
| TopicSetVelocitiesRaw (data : list double).

(** [executeCB] runs on the thread of the action server.  Each of its
    [usleep] calls lets the main thread run: a [Slice] says what the main
    thread does during one sleep and what [as_.isNewGoalAvailable()]
    answers after it.  The schedule is a finite list of slices; when it is
    used up inside a loop the computation is cut as [Waiting]. *)
Record Slice := {
  runs : list MainOp;
  newGoalAvailable : bool
}.

(** One thing that happens to the node: the main thread runs an
    operation, or the action server runs [executeCB] on a goal while the
    main thread follows a schedule. *)
Inductive Op :=
| Main (op : MainOp)
| Action (goal : Goal) (sched : list Slice).

(** ** Reasoning about computations *)

(** The log of [w'] is the log of [w] followed by events that satisfy
    [E]. *)
Definition extends (E : Event -> Prop) (w w' : World) : Prop :=
  exists new, log w' = log w ++ new /\ Forall E new.

(** However the computation ended, the members satisfy [I] and the events
    it added to the log satisfy [E]. *)
Definition keeps {A} (I : SdhNode -> Prop) (E : Event -> Prop)
    (w : World) (o : Outcome A) : Prop :=
  I (node (world_of o)) /\ extends E w (world_of o).

(** A computation that reads vectors and does nothing else: it returns in
    the world it started in, or stops there on an index out of range. *)
Definition pure {A} (m : M A) : Prop :=
  forall w, m w = Undefined w \/ exists a, m w = Done a w.

(** The calls of [updateSdh] that push a goal to the device. *)
Definition dispatch_call (c : DevCall) : bool :=
  match c with
  | Stop | SetAxisTargetAngle _ _ | MoveHand _ | SetAxisTargetVelocity _ _ => true
  | _ => false
  end.

(** ** The joint order and the two index tables *)

(** The order of the joints in a message, as the comments of [updateSdh]
    and the log line of [executeCB] list it. *)
Definition joint_order : list string :=
  ["sdh_knuckle_joint"; "sdh_thumb_2_joint"; "sdh_thumb_3_joint";
   "sdh_finger_12_joint"; "sdh_finger_13_joint";
   "sdh_finger_22_joint"; "sdh_finger_23_joint"].

(** The joint whose position [executeCB] stores for each axis, axis 0
    first (lines 296-302). *)
Definition axis_joint_names : list string :=
  ["sdh_knuckle_joint"; "sdh_finger_22_joint"; "sdh_finger_23_joint";
   "sdh_thumb_2_joint"; "sdh_thumb_3_joint";
   "sdh_finger_12_joint"; "sdh_finger_13_joint"].

(** To the device: axis [i] takes the joint at index [to_device_table[i]]
    ([executeCB] by name, [topicCallback_setVelocitiesRaw] by index). *)
Definition to_device_table : list nat := [0; 5; 6; 1; 2; 3; 4]%nat.

(** From the device: the joint at index [j] takes axis
    [from_device_table[j]] ([updateSdh]). *)
Definition from_device_table : list nat := [0; 3; 4; 5; 6; 1; 2]%nat.

(** ** Example data *)

(** Exact arithmetic: no operation rounds. *)
Definition unrounded (x : Q) : Q := x.

(** Binary floating-point arithmetic without overflow or underflow: the
    result is rounded to the nearest multiple of a power of two that
    leaves it at least 53 significant bits. *)
Definition round_to_53_bits (x : Q) : Q :=
  if (Qnum x =? 0)%Z then 0%Q
  else
    let e := (Z.log2 (Z.abs (Qnum x)) - Z.log2 (Zpos (Qden x)) - 54)%Z in
    let ulp := (2 ^ e)%Q in
    (inject_Z (Qfloor (x / ulp + (1 # 2))) * ulp)%Q.

Definition example_params : Params :=
  {| p_sdhdevicetype := None; p_sdhdevicestring := None;
     p_sdhdevicenum := None; p_sdhport := None; p_baudrate := None;
     p_timeout := None; p_id_read := None; p_id_write := None;
     p_joint_names := Some joint_order; p_OperationMode := None |}.

(** The node after [init] with the default parameters and the seven
    joint names. *)
Definition example_node : SdhNode :=
  {| nh_namespace := "/sdh";
     action_name_ := "/sdh/follow_joint_trajectory";
     state_ := [0; 0; 0; 0; 0; 0; 0];
     sdhdevicetype_ := "TCP";
     sdhdevicestring_ := "192.168.1.42";
     sdhdevicenum_ := 0;
     baudrate_ := 1000000;
     id_read_ := 43;
     id_write_ := 42;
     sdh_port_ := 23;
     timeout_ := 0.04%Q;
     isInitialized_ := false;
     isError_ := false;
     DOF_ := 7;
     joint_names_ := joint_order;
     axes_ := [0; 1; 2; 3; 4; 5; 6];
     targetAngles_ := [];
     velocities_ := [0; 0; 0; 0; 0; 0; 0]%Q;
     hasNewGoal_ := false;
     operationMode_ := "position";
     max_velocities_ := [] |}.

(** A device on which every call returns: each axis has a maximum
    velocity of 100 degrees per second and reports the given state. *)
Definition device_reporting (states : list Z) : cSDH :=
  {| sdh_command := fun _ _ => Returns tt;
     sdh_doubles := fun _ c =>
       match c with
       | GetTemperature => Returns (replicate 9 30%Q)
       | GetAxisMaxVelocity => Returns (replicate 7 100%Q)
       | _ => Returns (replicate 7 0%Q)
       end;
     sdh_states := fun _ _ => Returns states |}.

(** The same device, except that the calls selected by [fails] throw. *)
Definition device_failing (fails : DevCall -> bool) : cSDH :=
  {| sdh_command := fun _ c =>
       if fails c then Throws "timeout" else Returns tt;
     sdh_doubles := fun past c =>
       if fails c then Throws "timeout"
       else sdh_doubles (device_reporting [0; 0; 0; 0; 0; 0; 0]) past c;
     sdh_states := fun _ c =>
       if fails c then Throws "timeout" else Returns [0; 0; 0; 0; 0; 0; 0] |}.

(** The node after a successful [srvCallback_Init] on a device of
    [device_reporting]. *)
Definition connected_node : SdhNode :=
  with_max_velocities_ [100; 100; 100; 100; 100; 100; 100]%Q
    (with_isInitialized_ true example_node).

Definition connected : World := start connected_node.

(** The position goal of the scenario in the specification: the knuckle
    at 0.5 rad, the other joints at 0. *)
Definition example_goal : Goal :=
  {| joint_names := joint_order;
     points := [[0.5; 0; 0; 0; 0; 0; 0]%Q] |}.

(** A sleep of [executeCB] during which the main loop runs [updateSdh]
    once and no newer goal arrives. *)
Definition one_tick : Slice := {| runs := [Tick]; newGoalAvailable := false |}.

(** The calls that fail in the examples. *)
Definition is_Stop (c : DevCall) : bool :=
  match c with Stop => true | _ => false end.

Definition is_GetAxisActualState (c : DevCall) : bool :=
  match c with GetAxisActualState _ => true | _ => false end.

Definition is_GetAxisActualAngle (c : DevCall) : bool :=
  match c with GetAxisActualAngle _ => true | _ => false end.

Definition is_GetAxisMaxVelocity (c : DevCall) : bool :=
  match c with GetAxisMaxVelocity => true | _ => false end.

(** A device whose axes turn at 100 degrees per second at most, but which
    throws the first time it is asked for these maximum velocities and
    answers from the second time on; every other call returns. *)
Definition device_answering_late : cSDH :=
  {| sdh_command := fun _ _ => Returns tt;
     sdh_doubles := fun past c =>
       match c with
       | GetAxisMaxVelocity =>
           if existsb is_GetAxisMaxVelocity past
           then Returns (replicate 7 100%Q)
           else Throws "timeout"
       | _ => sdh_doubles (device_reporting [0; 0; 0; 0; 0; 0; 0]) past c
       end;
     sdh_states := fun _ _ => Returns [0; 0; 0; 0; 0; 0; 0] |}.

(** ** The member functions *)

Section Node.

(** Rounding of the result of one double-precision operation. *)
Variable rnd : Q -> Q.

(** The device behind the pointer [sdh_]. *)
Variable sdh_ : cSDH.

Definition dmul (x y : double) : double := rnd (x * y)%Q.
Definition ddiv (x y : double) : double := rnd (x / y)%Q.
Definition dsub (x y : double) : double := rnd (x - y)%Q.

(** [x * 180.0 / pi_] and [x * pi_ / 180.0]. *)
Definition to_degrees (x : double) : double := ddiv (dmul x 180%Q) pi_.
Definition to_radians (x : double) : double := ddiv (dmul x pi_) 180%Q.

(** A call [sdh_->c(...)]: it is logged together with the value of
    [hasNewGoal_] at that moment, and the device decides how it ends. *)
Definition invoke {A} (reply : cSDH -> list DevCall -> DevCall -> Reply A)
    (c : DevCall) : M A := fun w =>
  let w' := {| node := node w; log := log w ++ [Call c (hasNewGoal_ (node w))] |} in
  match reply sdh_ (calls_of (log w)) c with
  | Returns a => Done a w'
  | Throws what => Thrown what w'
  end.

Definition command : DevCall -> M unit := invoke sdh_command.
Definition read_doubles : DevCall -> M (list double) := invoke sdh_doubles.
Definition read_states : DevCall -> M (list Z) := invoke sdh_states.

(** [bool switchOperationMode(const std::string &mode)] *)
Definition switchOperationMode (mode : string) : M bool :=
  modify (with_hasNewGoal_ false) ;;
  command Stop ;;
  switched <- try_catch
    (known <- (if String.eqb mode "position" then
                 command (SetController eCT_POSE) ;; ret true
               else if String.eqb mode "velocity" then
                 command (SetController eCT_VELOCITY) ;; ret true
               else
                 ROS_ERROR ("Operation mode '" +:+ mode +:+ "'  not supported") ;;
                 ret false (* return false; *)) ;;
     if known then command (SetAxisEnable 1%Q) ;; ret true
     else ret false)
    (fun what =>
       ROS_ERROR ("An exception was caught: " +:+ what) ;;
       ret false (* return false; *)) ;;
  if switched then
    modify (with_operationMode_ mode) ;;
    ret true
  else ret false.

(** The [catch] block that reports the exception in the response:
    [res.success = false; res.message = e->what(); return true;] *)
Definition report_failure (what : string) : M Response :=
  ROS_ERROR ("An exception was caught: " +:+ what) ;;
  ret {| success := false; message := what |}.

(** [bool srvCallback_Init(Request &req, Response &res)]; the result is
    the response [res] at the [return true]. *)
Definition srvCallback_Init : M Response :=
  let res := fresh_response in
  initialized <- get isInitialized_ ;;
  if negb initialized then
    devicetype <- get sdhdevicetype_ ;;
    devicestring <- get sdhdevicestring_ ;;
    devicenum <- get sdhdevicenum_ ;;
    baudrate <- get baudrate_ ;;
    timeout <- get timeout_ ;;
    id_read <- get id_read_ ;;
    id_write <- get id_write_ ;;
    port <- get sdh_port_ ;;
    early <- try_catch
      ((if String.eqb devicetype "RS232" then
          command (OpenRS232 devicenum 115200 1%Q devicestring) ;;
          modify (with_isInitialized_ true)
        else ret tt) ;;
       (if String.eqb devicetype "PCAN" then
          command (OpenCAN_PEAK baudrate timeout id_read id_write devicestring) ;;
          modify (with_isInitialized_ true)
        else ret tt) ;;
       (if String.eqb devicetype "TCP" then
          command (OpenTCP devicestring port timeout) ;;
          modify (with_isInitialized_ true)
        else ret tt) ;;
       unsupported <-
         (if String.eqb devicetype "ESD" then
            if String.eqb devicestring "/dev/can0" then
              command (OpenCAN_ESD 0 baudrate timeout id_read id_write) ;;
              modify (with_isInitialized_ true) ;;
              ret false
            else if String.eqb devicestring "/dev/can1" then
              command (OpenCAN_ESD 1 baudrate timeout id_read id_write) ;;
              modify (with_isInitialized_ true) ;;
              ret false
            else
              ROS_ERROR "Currently only support for /dev/can0 and /dev/can1" ;;
              ret true
          else ret false) ;;
       if unsupported then
         ret (Some {| success := false;
                      message := "Currently only support for /dev/can0 and /dev/can1" |})
       else
         maxv <- read_doubles GetAxisMaxVelocity ;;
         modify (with_max_velocities_ maxv) ;;
         ret None)
      (fun what => res' <- report_failure what ;; ret (Some res')) ;;
    match early with
    | Some res' => ret res' (* return true; *)
    | None =>
        mode <- get operationMode_ ;;
        switched <- switchOperationMode mode ;;
        if negb switched then
          ret {| success := false;
                 message := "Could not set operation mode to '" +:+ mode +:+ "'" |}
        else
          ret {| success := true; message := message res |}
    end
  else
    ROS_WARN "...sdh already initialized..." ;;
    ret {| success := true; message := "sdh already initialized" |}.

(** [bool srvCallback_Stop(Request &req, Response &res)] *)
Definition srvCallback_Stop : M Response :=
  let res := fresh_response in
  try_catch (command Stop)
    (fun what => ROS_ERROR ("An exception was caught: " +:+ what)) ;;
  ret {| success := true; message := message res |}.

(** [bool srvCallback_Recover(Request &req, Response &res)]; the service
    [recover] is advertised with [srvCallback_Init], not with this. *)
Definition srvCallback_Recover : M Response :=
  ROS_WARN "Service recover not implemented yet" ;;
  ret {| success := true; message := "Service recover not implemented yet" |}.

(** [bool srvCallback_SetOperationMode(Request &req, Response &res)] with
    [data] for [req.data]. *)
Definition srvCallback_SetOperationMode (data : string) : M Response :=
  let res := fresh_response in
  modify (with_hasNewGoal_ false) ;;
  command Stop ;;
  switched <- switchOperationMode data ;;
  mode <- get operationMode_ ;;
  (if String.eqb mode "position" then
     command (SetController eCT_POSE)
   else if String.eqb mode "velocity" then
     try_catch
       (command (SetController eCT_VELOCITY) ;;
        command (SetAxisEnable 1%Q))
       (fun what => ROS_ERROR ("An exception was caught: " +:+ what))
   else
     ROS_ERROR ("Operation mode '" +:+ data +:+ "'  not supported")) ;;
  ret {| success := switched; message := message res |}.

(** [bool srvCallback_EmergencyStop(Request &req, Response &res)] *)
Definition srvCallback_EmergencyStop : M Response :=
  try_catch
    (modify (with_isInitialized_ false) ;;
     command EmergencyStop ;;
     command (SetAxisEnable 0%Q) ;;
     command (SetAxisMotorCurrent 0%Q) ;;
     ret {| success := true; message := "EMERGENCY stop" |})
    report_failure.

(** [bool srvCallback_Disconnect(Request &req, Response &res)] *)
Definition srvCallback_Disconnect : M Response :=
  try_catch
    (modify (with_isInitialized_ false) ;;
     command (SetAxisEnable 0%Q) ;;
     command (SetAxisMotorCurrent 0%Q) ;;
     command Close ;;
     ret {| success := true; message := "disconnected from SDH" |})
    report_failure.

(** [bool srvCallback_MotorPowerOn(Request &req, Response &res)] *)
Definition srvCallback_MotorPowerOn : M Response :=
  try_catch
    (command (SetAxisEnable 1%Q) ;;
     command (SetAxisMotorCurrent 0.5%Q) ;;
     ret {| success := true; message := "Motor ON" |})
    report_failure.

(** [bool srvCallback_MotorPowerOff(Request &req, Response &res)] *)
Definition srvCallback_MotorPowerOff : M Response :=
  try_catch
    (command (SetAxisEnable 0%Q) ;;
     command (SetAxisMotorCurrent 0%Q) ;;
     ret {| success := true; message := "Motor OFF" |})
    report_failure.

(** [for (i = 0; i < n; i++) body i] *)
Fixpoint for_each {A} (l : list A) (body : A -> M unit) : M unit :=
  match l with
  | [] => ret tt
  | i :: l' => body i ;; for_each l' body
  end.

Definition for_ (n : nat) (body : nat -> M unit) : M unit :=
  for_each (seq 0 n) body.

(** [void topicCallback_setVelocitiesRaw(const Float64MultiArrayPtr&)] with
    [data] for [velocities->data].  The callback runs on the thread of the
    main loop, which is also the only one that resets [hasNewGoal_]: when
    the flag is set the [while] loop cannot end. *)
Definition topicCallback_setVelocitiesRaw (data : list double) : M unit :=
  initialized <- get isInitialized_ ;;
  name <- get action_name_ ;;
  vel <- get velocities_ ;;
  mode <- get operationMode_ ;;
  if negb initialized then
    ROS_ERROR (name +:+ ": Rejected, sdh not initialized")
  else if negb (length data =? length vel)%nat then
    ROS_ERROR "Velocity array dimension mismatch"
  else if negb (String.eqb mode "velocity") then
    ROS_ERROR (name +:+ ": Rejected, sdh not in velocity mode")
  else
    pending <- get hasNewGoal_ ;;
    if pending then waiting
    else
      x <- at_ data 0 ;; vel <- store vel 0 (to_degrees x) ;;
      x <- at_ data 5 ;; vel <- store vel 1 (to_degrees x) ;;
      x <- at_ data 6 ;; vel <- store vel 2 (to_degrees x) ;;
      x <- at_ data 1 ;; vel <- store vel 3 (to_degrees x) ;;
      x <- at_ data 2 ;; vel <- store vel 4 (to_degrees x) ;;
      x <- at_ data 3 ;; vel <- store vel 5 (to_degrees x) ;;
      x <- at_ data 4 ;; vel <- store vel 6 (to_degrees x) ;;
      modify (with_velocities_ vel) ;;
      modify (with_hasNewGoal_ true).

(** [void clampVelocities()] *)
Definition clampVelocities : M unit :=
  maxv <- get max_velocities_ ;;
  for_ (length maxv) (fun i =>
    vel <- get velocities_ ;;
    v <- at_ vel i ;;
    m <- at_ maxv i ;;
    vel <- store vel i (ToRange v (- m)%Q m) ;;
    modify (with_velocities_ vel)).

(** The seven assignments that take a vector in axis order to a message
    field in joint order, as in
    [msg.position[1] = actualAngles[3] * pi_ / 180.0;]. *)
Definition axes_to_joints (a field : list double) : M (list double) :=
  x <- at_ a 0 ;; field <- store field 0 (to_radians x) ;;
  x <- at_ a 3 ;; field <- store field 1 (to_radians x) ;;
  x <- at_ a 4 ;; field <- store field 2 (to_radians x) ;;
  x <- at_ a 5 ;; field <- store field 3 (to_radians x) ;;
  x <- at_ a 6 ;; field <- store field 4 (to_radians x) ;;
  x <- at_ a 1 ;; field <- store field 5 (to_radians x) ;;
  x <- at_ a 2 ;; field <- store field 6 (to_radians x) ;;
  ret field.

(** [for (i = 0; i < DOF_; i++) error[i] = desired[i] - actual[i];] *)
Fixpoint error_loop (idx : list nat) (desired actual error : list double)
    : M (list double) :=
  match idx with
  | [] => ret error
  | i :: idx' =>
      d <- at_ desired i ;;
      a <- at_ actual i ;;
      error <- store error i (dsub d a) ;;
      error_loop idx' desired actual error
  end.

(** The catch block of [updateSdh]: the exception is logged and dropped. *)
Definition log_exception (what : string) : M unit :=
  ROS_ERROR ("An exception was caught: " +:+ what).

(** The block [if (hasNewGoal_ == true) { ... }] of [updateSdh]
    (lines 664-720). *)
Definition dispatch_goal : M unit :=
  pending <- get hasNewGoal_ ;;
  axes <- get axes_ ;;
  if pending then
    (* stop sdh first when new goal arrived *)
    try_catch (command Stop) log_exception ;;
    mode <- get operationMode_ ;;
    (if String.eqb mode "position" then
       try_catch
         (target <- get targetAngles_ ;;
          command (SetAxisTargetAngle axes target) ;;
          command (MoveHand false))
         log_exception
     else if String.eqb mode "velocity" then
       try_catch
         (clampVelocities ;;
          vel <- get velocities_ ;;
          command (SetAxisTargetVelocity axes vel))
         log_exception
     else if String.eqb mode "effort" then
       ROS_WARN "Moving in effort mode currently disabled"
     else
       ROS_ERROR ("sdh neither in position nor in velocity nor in effort mode. OperationMode = ["
                  +:+ mode +:+ "]")) ;;
    modify (with_hasNewGoal_ false)
  else ret tt.

(** The rest of the branch [isInitialized_ == true] of [updateSdh]
    (lines 722-841): read the device and publish. *)
Definition read_and_publish : M unit :=
  axes <- get axes_ ;;
  dof <- get DOF_ ;;
  names <- get joint_names_ ;;
  (* read and publish joint angles and velocities *)
  actualAngles <- try_catch (read_doubles (GetAxisActualAngle axes))
                    (fun what => log_exception what ;; ret []) ;;
  actualVelocities <- try_catch (read_doubles (GetAxisActualVelocity axes))
                        (fun what => log_exception what ;; ret []) ;;
  (* joint_state message *)
  position <- axes_to_joints actualAngles (resize_ 0%Q dof []) ;;
  velocity <- axes_to_joints actualVelocities (resize_ 0%Q dof []) ;;
  emit (PubJointState names position velocity (resize_ 0%Q dof [])) ;;
  (* the coupled joint *)
  p0 <- at_ position 0 ;;
  v0 <- at_ velocity 0 ;;
  emit (PubJointState ["schunk_right_finger_21_joint"] [p0] [v0] []) ;;
  (* controller state message *)
  target <- get targetAngles_ ;;
  desired_positions <-
    (if negb (length target =? 0)%nat then
       axes_to_joints target (resize_ 0%Q dof [])
     else ret (resize_ 0%Q dof [])) ;;
  let desired_velocities := resize_ 0%Q dof [] in
  error_positions <-
    error_loop (seq 0 dof) desired_positions position (resize_ 0%Q dof []) ;;
  error_velocities <-
    error_loop (seq 0 dof) desired_velocities velocity (resize_ 0%Q dof []) ;;
  emit (PubControllerState names desired_positions desired_velocities
          position velocity error_positions error_velocities) ;;
  (* read sdh status *)
  st <- read_states (GetAxisActualState axes) ;;
  modify (with_state_ st) ;;
  (* publish temperature *)
  temp_value <- read_doubles GetTemperature ;;
  if (length temp_value =? length temperature_names_)%nat then
    emit (PubTemperature temperature_names_ temp_value)
  else
    ROS_ERROR "amount of temperatures mismatch with stored names" ;;
    emit (PubTemperature [] []).

(** The end of [updateSdh] (lines 847-873): the diagnostics message. *)
Definition publish_diagnostics : M unit :=
  error <- get isError_ ;;
  initialized <- get isInitialized_ ;;
  ns <- get nh_namespace ;;
  if error then
    emit (PubDiagnostics 2 "schunk_powercube_chain"
            "one or more drives are in Error mode")
  else if initialized then
    emit (PubDiagnostics 0 ns "sdh initialized and running")
  else
    emit (PubDiagnostics 1 ns "sdh not initialized").

(** [void updateSdh()] *)
Definition updateSdh : M unit :=
  initialized <- get isInitialized_ ;;
  (if initialized then
     dispatch_goal ;;
     read_and_publish
   else ret tt) ;;
  publish_diagnostics.

(** *** The main thread *)

Definition run_main (op : MainOp) : M unit :=
  match op with
  | Tick => updateSdh
  | SrvInit => srvCallback_Init ;; ret tt
  | SrvStop => srvCallback_Stop ;; ret tt
  | SrvRecover => srvCallback_Init ;; ret tt
  | SrvSetOperationMode data => srvCallback_SetOperationMode data ;; ret tt
  | SrvEmergencyStop => srvCallback_EmergencyStop ;; ret tt
  | SrvDisconnect => srvCallback_Disconnect ;; ret tt
  | SrvMotorOn => srvCallback_MotorPowerOn ;; ret tt
  | SrvMotorOff => srvCallback_MotorPowerOff ;; ret tt
  | TopicSetVelocitiesRaw data => topicCallback_setVelocitiesRaw data
  end.

(** *** The action thread *)

Definition usleep (s : Slice) : M unit := for_each (runs s) run_main.

(** [while (hasNewGoal_ == true) usleep(10000);], returning the rest of
    the schedule. *)
Fixpoint wait_for_slot (sched : list Slice) : M (list Slice) :=
  pending <- get hasNewGoal_ ;;
  if pending then
    match sched with
    | [] => waiting
    | s :: sched' => usleep s ;; wait_for_slot sched'
    end
  else ret sched.

(** [bool finished = false; while (finished == false) { ... }] and the
    [as_.setSucceeded()] after it; [available] is the current answer of
    [as_.isNewGoalAvailable()]. *)
Fixpoint wait_for_idle (available : bool) (sched : list Slice) : M unit :=
  if available then
    name <- get action_name_ ;;
    ROS_WARN (name +:+ ": Aborted") ;;
    emit SetAborted (* return; *)
  else
    st <- get state_ ;;
    let finished := scan_states st false in
    match sched with
    | [] => waiting
    | s :: sched' =>
        usleep s ;;
        if finished then emit SetSucceeded
        else wait_for_idle (newGoalAvailable s) sched'
    end.

(** [goal->trajectory.points.empty() ||
     goal->trajectory.points[0].positions.size() != size_t(DOF_)] *)
Definition malformed (dof : nat) (goal : Goal) : bool :=
  match points goal with
  | [] => true
  | positions :: _ => negb (length positions =? dof)%nat
  end.

(** The assignments to [targetAngles_] of [executeCB]. *)
Definition install_target (goal : Goal) : M unit :=
  let dict := make_dict (joint_names goal) in
  dof <- get DOF_ ;;
  target <- get targetAngles_ ;;
  let target := resize_ 0%Q dof target in
  positions <- at_ (points goal) 0 ;;
  x <- at_ positions (dict_at dict "sdh_knuckle_joint") ;;
  target <- store target 0 (to_degrees x) ;;
  x <- at_ positions (dict_at dict "sdh_finger_22_joint") ;;
  target <- store target 1 (to_degrees x) ;;
  x <- at_ positions (dict_at dict "sdh_finger_23_joint") ;;
  target <- store target 2 (to_degrees x) ;;
  x <- at_ positions (dict_at dict "sdh_thumb_2_joint") ;;
  target <- store target 3 (to_degrees x) ;;
  x <- at_ positions (dict_at dict "sdh_thumb_3_joint") ;;
  target <- store target 4 (to_degrees x) ;;
  x <- at_ positions (dict_at dict "sdh_finger_12_joint") ;;
  target <- store target 5 (to_degrees x) ;;
  x <- at_ positions (dict_at dict "sdh_finger_13_joint") ;;
  target <- store target 6 (to_degrees x) ;;
  modify (with_targetAngles_ target).

(** [void executeCB(const FollowJointTrajectoryGoalConstPtr &goal)] *)
Definition executeCB (goal : Goal) (sched : list Slice) : M unit :=
  mode <- get operationMode_ ;;
  initialized <- get isInitialized_ ;;
  name <- get action_name_ ;;
  dof <- get DOF_ ;;
  if negb (String.eqb mode "position") then
    ROS_ERROR (name +:+ ": Rejected, sdh not in position mode") ;;
    emit SetAborted
  else if negb initialized then
    ROS_ERROR (name +:+ ": Rejected, sdh not initialized") ;;
    emit SetAborted
  else if malformed dof goal then
    ROS_ERROR (name +:+ ": Rejected, malformed FollowJointTrajectoryGoal") ;;
    emit SetAborted
  else
    sched <- wait_for_slot sched ;;
    install_target goal ;;
    modify (with_hasNewGoal_ true) ;;
    (* needed sleep until sdh starts to change status from idle to moving *)
    match sched with
    | [] => waiting
    | s :: sched' =>
        usleep s ;;
        wait_for_idle (newGoalAvailable s) sched'
    end.

Definition run (op : Op) : M unit :=
  match op with
  | Main op => run_main op
  | Action goal sched => executeCB goal sched
  end.

(** A history of the node. *)
Definition run_all (ops : list Op) : M unit := for_each ops run.

(** [~SdhNode()]: [if (isInitialized_) sdh_->Close(); delete sdh_;] *)
Definition destructor : M unit :=
  initialized <- get isInitialized_ ;;
  if initialized then command Close else ret tt.

(** * Properties *)

(** ** Rules for [keeps] and [pure] *)

Lemma extends_refl E w : extends E w w.
Proof. exists []. split; [now rewrite app_nil_r | constructor]. Qed.

Lemma extends_trans E w1 w2 w3 :
  extends E w1 w2 -> extends E w2 w3 -> extends E w1 w3.
Proof.
  intros [n1 [H1 F1]] [n2 [H2 F2]]. exists (n1 ++ n2). split.
  - rewrite H2, H1. now rewrite app_assoc.
  - apply Forall_app. now split.
Qed.

Lemma extends_event E (e : Event) w :
  E e -> extends E w {| node := node w; log := log w ++ [e] |}.
Proof. intros He. exists [e]. split; [reflexivity | now repeat constructor]. Qed.

Lemma extends_same_log E w w' : log w' = log w -> extends E w w'.
Proof. intros H. exists []. split; [now rewrite app_nil_r | constructor]. Qed.

Lemma keeps_ret {A} I E w (a : A) : I (node w) -> keeps I E w (ret a w).
Proof. intros H. split; [exact H | apply extends_refl]. Qed.

Lemma keeps_undefined {A} I E w : I (node w) -> keeps I E w (@undefined A w).
Proof. intros H. split; [exact H | apply extends_refl]. Qed.

Lemma keeps_waiting {A} I E w : I (node w) -> keeps I E w (@waiting A w).
Proof. intros H. split; [exact H | apply extends_refl]. Qed.

Lemma keeps_modify I E w f : I (f (node w)) -> keeps I E w (modify f w).
Proof. intros H. split; [exact H | now apply extends_same_log]. Qed.

Lemma keeps_emit I E w e : I (node w) -> E e -> keeps I E w (emit e w).
Proof. intros H He. split; [exact H | now apply extends_event]. Qed.

Lemma keeps_invoke {A} I E w reply c :
  I (node w) -> E (Call c (hasNewGoal_ (node w))) ->
  keeps I E w (@invoke A reply c w).
Proof.
  intros H He. unfold invoke.
  destruct (reply sdh_ (calls_of (log w)) c); (split; [exact H | now apply extends_event]).
Qed.

Lemma keeps_bind {A B} I E w (m : M A) (k : A -> M B) :
  keeps I E w (m w) ->
  (forall a w', m w = Done a w' -> I (node w') -> keeps I E w' (k a w')) ->
  keeps I E w (bind m k w).
Proof.
  intros [Hi Hx] Hk. unfold bind.
  destruct (m w) as [a w'| |w'|w'] eqn:Hm; try (split; assumption).
  destruct (Hk a w' eq_refl Hi) as [Hi' Hx']. split; [exact Hi' |].
  eapply extends_trans; eassumption.
Qed.

Lemma keeps_try_catch {A} I E w (m : M A) (h : string -> M A) :
  keeps I E w (m w) ->
  (forall what w', m w = Thrown what w' -> I (node w') -> keeps I E w' (h what w')) ->
  keeps I E w (try_catch m h w).
Proof.
  intros [Hi Hx] Hh. unfold try_catch.
  destruct (m w) as [a w'|what w'|w'|w'] eqn:Hm; try (split; assumption).
  destruct (Hh what w' eq_refl Hi) as [Hi' Hx']. split; [exact Hi' |].
  eapply extends_trans; eassumption.
Qed.

Lemma keeps_pure {A} I E w (m : M A) :
  pure m -> I (node w) -> keeps I E w (m w).
Proof.
  intros Hp H. destruct (Hp w) as [-> | [a ->]]; (split; [exact H | apply extends_refl]).
Qed.

Lemma pure_ret {A} (a : A) : pure (ret a).
Proof. intros w. right. now exists a. Qed.

Lemma pure_at {A} (v : list A) i : pure (at_ v i).
Proof. intros w. unfold at_. destruct (v !! i); [right; eauto | now left]. Qed.

Lemma pure_store {A} (v : list A) i x : pure (store v i x).
Proof. intros w. unfold store. destruct (_ <? _)%nat; [right; eauto | now left]. Qed.

Lemma pure_bind {A B} (m : M A) (k : A -> M B) :
  pure m -> (forall a, pure (k a)) -> pure (bind m k).
Proof.
  intros Hm Hk w. unfold bind. destruct (Hm w) as [-> | [a ->]]; [now left | apply Hk].
Qed.

Lemma pure_axes_to_joints a field : pure (axes_to_joints a field).
Proof.
  unfold axes_to_joints.
  repeat (apply pure_bind; [first [apply pure_at | apply pure_store] | intros ?]).
  apply pure_ret.
Qed.

Lemma pure_error_loop idx desired actual error :
  pure (error_loop idx desired actual error).
Proof.
  revert error. induction idx as [|i idx IH]; intros error; simpl.
  - apply pure_ret.
  - repeat (apply pure_bind; [first [apply pure_at | apply pure_store] | intros ?]).
    apply IH.
Qed.

(** ** Rejection of a position goal *)

(** C8: a position goal that arrives while the mode is not "position", or
    while the node is not initialized, or that is malformed (no trajectory
    point, or a first point whose number of positions is not [DOF_]) is
    rejected at once: [executeCB] returns without using the schedule, the
    members (among them [hasNewGoal_] and [targetAngles_]) are what they
    were, and the log grows by one error line and the abort of the goal,
    so no call into the device is made. *)
Theorem executeCB_rejects (goal : Goal) (sched : list Slice) (w : World) :
  operationMode_ (node w) <> "position" \/
  isInitialized_ (node w) = false \/
  malformed (DOF_ (node w)) goal = true ->
  exists text,
    executeCB goal sched w =
    Done tt {| node := node w; log := log w ++ [RosError text; SetAborted] |}.
Proof.
  intros H. unfold executeCB, bind, get. simpl.
  destruct (String.eqb (operationMode_ (node w)) "position") eqn:Hmode; simpl.
  - apply String.eqb_eq in Hmode.
    destruct (isInitialized_ (node w)) eqn:Hinit; simpl.
    + destruct (malformed (DOF_ (node w)) goal) eqn:Hmal; simpl.
      * eexists. unfold ROS_ERROR, emit. simpl. rewrite <- app_assoc. reflexivity.
      * destruct H as [H | [H | H]]; [contradiction | discriminate | discriminate].
    + eexists. unfold ROS_ERROR, emit. simpl. rewrite <- app_assoc. reflexivity.
  - eexists. unfold ROS_ERROR, emit. simpl. rewrite <- app_assoc. reflexivity.
Qed.

(** ** Switching the operation mode *)

(** Unfolding of the primitive computations. *)
Ltac unfold_prims :=
  unfold bind, ret, get, modify, emit, try_catch, undefined, waiting,
    command, read_doubles, read_states, invoke, ROS_ERROR, ROS_WARN,
    report_failure, log_exception in *.

(** How [switchOperationMode] returns: true only for a supported mode,
    after storing it; false after nothing but the clearing of
    [hasNewGoal_]. *)
Lemma switchOperationMode_Done (mode : string) (w w' : World) (ok : bool) :
  switchOperationMode mode w = Done ok w' ->
  (ok = true /\ (mode = "position" \/ mode = "velocity") /\
   node w' = with_operationMode_ mode (with_hasNewGoal_ false (node w))) \/
  (ok = false /\ node w' = with_hasNewGoal_ false (node w)).
Proof.
  unfold switchOperationMode. unfold_prims. simpl.
  destruct (sdh_command sdh_ (calls_of (log w)) Stop); [| discriminate].
  destruct (String.eqb mode "position") eqn:Hp; simpl.
  - apply String.eqb_eq in Hp.
    repeat (match goal with
            | |- context [sdh_command ?d ?l ?c] => destruct (sdh_command d l c)
            end; simpl);
      intros H; inversion H; subst; simpl; auto.
  - destruct (String.eqb mode "velocity") eqn:Hv; simpl.
    + apply String.eqb_eq in Hv.
      repeat (match goal with
              | |- context [sdh_command ?d ?l ?c] => destruct (sdh_command d l c)
              end; simpl);
        intros H; inversion H; subst; simpl; auto.
    + intros H; inversion H; subst; simpl; auto.
Qed.

(** C6: when [switchOperationMode(mode)] returns true, [mode] is
    "position" or "velocity", the stored mode is [mode] and [hasNewGoal_]
    is false; when it returns false, the stored mode is the one before the
    call. *)
Theorem switchOperationMode_result (mode : string) (w w' : World) (ok : bool) :
  switchOperationMode mode w = Done ok w' ->
  if ok then
    (mode = "position" \/ mode = "velocity") /\
    operationMode_ (node w') = mode /\
    hasNewGoal_ (node w') = false
  else operationMode_ (node w') = operationMode_ (node w).
Proof.
  intros Hrun.
  destruct (switchOperationMode_Done mode w w' ok Hrun)
    as [(-> & Hmode & ->) | (-> & ->)].
  - split; [exact Hmode |]. split; reflexivity.
  - reflexivity.
Qed.

(** On a device that accepts every command, a supported mode is switched
    to. *)
Lemma switchOperationMode_succeeds (mode : string) (w : World) :
  (forall past c, sdh_command sdh_ past c = Returns tt) ->
  mode = "position" \/ mode = "velocity" ->
  exists w', switchOperationMode mode w = Done true w'.
Proof.
  intros Hdev Hmode. unfold switchOperationMode. unfold_prims. simpl.
  rewrite Hdev.
  destruct Hmode as [-> | ->]; simpl; rewrite !Hdev; simpl; eauto.
Qed.

(** ** The service [stop] *)

(** Whatever the device does, [srvCallback_Stop] answers with
    [success = true] and leaves the message empty. *)
Lemma srvCallback_Stop_always_succeeds (w : World) :
  exists w', srvCallback_Stop w = Done {| success := true; message := "" |} w'.
Proof.
  unfold srvCallback_Stop. unfold_prims. simpl.
  destruct (sdh_command sdh_ (calls_of (log w)) Stop); simpl; eauto.
Qed.

(** C7, as the code has it: when [Stop] throws, [srvCallback_Stop] logs
    the exception and still answers [success = true], with an empty
    message; the text of the exception goes to the log only. *)
Theorem srvCallback_Stop_hides_exception (w : World) (what : string) :
  sdh_command sdh_ (calls_of (log w)) Stop = Throws what ->
  srvCallback_Stop w =
  Done {| success := true; message := "" |}
       {| node := node w;
          log := log w ++ [Call Stop (hasNewGoal_ (node w));
                           RosError ("An exception was caught: " +:+ what)] |}.
Proof.
  intros Hthrow. unfold srvCallback_Stop. unfold_prims. simpl.
  rewrite Hthrow. simpl. now rewrite <- app_assoc.
Qed.

(** ** Walking through a computation with [keeps] *)

Lemma keeps_get_bind {A B} I E w (f : SdhNode -> A) (k : A -> M B) :
  keeps I E w (k (f (node w)) w) -> keeps I E w (bind (get f) k w).
Proof. exact (fun H => H). Qed.

Lemma keeps_for_each {A} I E (body : A -> M unit) (l : list A) :
  (forall a w, I (node w) -> keeps I E w (body a w)) ->
  forall w, I (node w) -> keeps I E w (for_each l body w).
Proof.
  intros Hbody. induction l as [|a l IH]; intros w Hw; simpl.
  - now apply keeps_ret.
  - apply keeps_bind; [now apply Hbody | intros _ w' _ Hw'; now apply IH].
Qed.

Ltac keeps_step :=
  match goal with
  | |- keeps _ _ ?w (bind (get _) _ ?w) => apply keeps_get_bind
  | |- keeps _ _ _ (bind _ _ _) => apply keeps_bind; [| intros ? ? ? ?]
  | |- keeps _ _ _ (try_catch _ _ _) => apply keeps_try_catch; [| intros ? ? ? ?]
  | |- keeps _ _ _ (ret _ _) => apply keeps_ret
  | |- keeps _ _ _ (undefined _) => apply keeps_undefined
  | |- keeps _ _ _ (waiting _) => apply keeps_waiting
  | |- keeps _ _ _ (modify _ _) => apply keeps_modify
  | |- keeps _ _ _ (emit _ _) => apply keeps_emit
  | |- keeps _ _ _ (ROS_ERROR _ _) => apply keeps_emit
  | |- keeps _ _ _ (ROS_WARN _ _) => apply keeps_emit
  | |- keeps _ _ _ (log_exception _ _) => apply keeps_emit
  | |- keeps _ _ _ (report_failure _ _) => unfold report_failure
  | |- keeps _ _ _ (command _ _) => apply keeps_invoke
  | |- keeps _ _ _ (read_doubles _ _) => apply keeps_invoke
  | |- keeps _ _ _ (read_states _ _) => apply keeps_invoke
  | |- keeps _ _ _ (at_ _ _ _) => apply keeps_pure; [apply pure_at |]
  | |- keeps _ _ _ (store _ _ _ _) => apply keeps_pure; [apply pure_store |]
  | |- keeps _ _ _ (axes_to_joints _ _ _) =>
      apply keeps_pure; [apply pure_axes_to_joints |]
  | |- keeps _ _ _ (error_loop _ _ _ _ _) =>
      apply keeps_pure; [apply pure_error_loop |]
  | |- keeps _ _ _ ((if ?b then _ else _) _) => destruct b eqn:?
  | |- keeps _ _ _ (match ?x with _ => _ end _) => destruct x eqn:?
  end.

(** The slot is empty, and every call is made with the slot empty. *)
Definition slot_empty (n : SdhNode) : Prop := hasNewGoal_ n = false.
Definition call_sees_empty (e : Event) : Prop :=
  forall c p, e = Call c p -> p = false.

Ltac solve_empty :=
  first [ assumption
        | reflexivity
        | intros ? ? [= <- <-]; assumption
        | intros ? ? [=] ].

Lemma switchOperationMode_keeps_empty mode w :
  keeps slot_empty call_sees_empty w (switchOperationMode mode w).
Proof.
  unfold switchOperationMode.
  apply keeps_bind; [apply keeps_modify; reflexivity | intros ? ? ? ?].
  repeat keeps_step; unfold slot_empty, call_sees_empty in *; solve_empty.
Qed.

Lemma bind_Done {A B} (m : M A) (k : A -> M B) w b w' :
  bind m k w = Done b w' ->
  exists a w1, m w = Done a w1 /\ k a w1 = Done b w'.
Proof.
  unfold bind. destruct (m w) as [a w1| | |]; try discriminate. eauto.
Qed.

Lemma invoke_Done {A} (reply : cSDH -> list DevCall -> DevCall -> Reply A)
    c w a w' :
  invoke reply c w = Done a w' -> node w' = node w.
Proof.
  unfold invoke. destruct (reply _ _ _); intros [= <- <-]; reflexivity.
Qed.

(** How [srvCallback_SetOperationMode] returns: [Stop] returned in [w1],
    [switchOperationMode] returned the answer in [w2], and the rest of
    the callback left the stored mode alone. *)
Lemma SetOperationMode_Done data w res w' :
  srvCallback_SetOperationMode data w = Done res w' ->
  exists w1 w2,
    operationMode_ (node w1) = operationMode_ (node w) /\
    switchOperationMode data w1 = Done (success res) w2 /\
    operationMode_ (node w') = operationMode_ (node w2) /\
    message res = "".
Proof.
  unfold srvCallback_SetOperationMode. intros H.
  apply bind_Done in H as (u0 & w0 & Hclear & H).
  injection Hclear as _ <-.
  apply bind_Done in H as (u1 & w1 & Hstop & H).
  apply invoke_Done in Hstop.
  apply bind_Done in H as (ok & w2 & Hsw & H).
  apply bind_Done in H as (mode & w2' & Hget & H).
  injection Hget as <- <-.
  apply bind_Done in H as (u3 & w3 & Htail & Hret).
  injection Hret as <- <-.
  assert (Hn3 : node w3 = node w2).
  { revert Htail. unfold_prims.
    repeat (match goal with
            | |- context [if ?b then _ else _] => destruct b
            | |- context [match sdh_command ?d ?l ?c with _ => _ end] =>
                destruct (sdh_command d l c)
            end; simpl);
      intros Heq; inversion Heq; reflexivity. }
  exists w1, w2. simpl. rewrite Hstop, Hn3. repeat split; assumption.
Qed.

(** C9: however [srvCallback_SetOperationMode] ends, [hasNewGoal_] is
    false afterwards, and the slot is cleared at entry: every call into
    the device it makes sees the slot empty.  When it answers
    [success = false] the stored mode is the one before the call, and it
    answers [success = false] whenever the requested mode is neither
    "position" nor "velocity". *)
Theorem srvCallback_SetOperationMode_discards_goal (data : string) (w : World) :
  let o := srvCallback_SetOperationMode data w in
  hasNewGoal_ (node (world_of o)) = false /\
  extends call_sees_empty w (world_of o) /\
  (forall res w', o = Done res w' -> success res = false ->
     operationMode_ (node w') = operationMode_ (node w)) /\
  (data <> "position" -> data <> "velocity" ->
   forall res w', o = Done res w' -> success res = false).
Proof.
  simpl. split; [| split; [| split]].
  - cut (keeps slot_empty call_sees_empty w (srvCallback_SetOperationMode data w));
      [intros [H _]; exact H |].
    unfold srvCallback_SetOperationMode.
    apply keeps_bind; [apply keeps_modify; reflexivity | intros ? ? ? ?].
    repeat keeps_step; unfold slot_empty, call_sees_empty in *;
      first [apply switchOperationMode_keeps_empty | solve_empty].
  - cut (keeps slot_empty call_sees_empty w (srvCallback_SetOperationMode data w));
      [intros [_ H]; exact H |].
    unfold srvCallback_SetOperationMode.
    apply keeps_bind; [apply keeps_modify; reflexivity | intros ? ? ? ?].
    repeat keeps_step; unfold slot_empty, call_sees_empty in *;
      first [apply switchOperationMode_keeps_empty | solve_empty].
  - intros res w' Hdone. apply SetOperationMode_Done in Hdone.
    destruct Hdone as (w1 & w2 & Hw1 & Hsw & Hw2 & _).
    intros Hfail. apply switchOperationMode_Done in Hsw.
    destruct Hsw as [(Hok & _) | (_ & Hn2)]; [congruence |].
    rewrite Hw2, Hn2, <- Hw1. reflexivity.
  - intros Hp Hv res w' Hdone. apply SetOperationMode_Done in Hdone.
    destruct Hdone as (w1 & w2 & Hw1 & Hsw & Hw2 & _).
    apply switchOperationMode_Done in Hsw.
    destruct Hsw as [(_ & [-> | ->] & _) | (Hok & _)];
      [contradiction | contradiction | exact Hok].
Qed.

(** ** The order of dispatch and clearing in [updateSdh] *)

(** A call is made with the slot full exactly when it is a dispatch
    call. *)
Definition call_sees_dispatch (e : Event) : Prop :=
  forall c p, e = Call c p -> p = dispatch_call c.

(** The computation returned or stopped on an index out of range, in a
    world that satisfies [P]; no exception left it. *)
Definition contained {A} (P : World -> Prop) (o : Outcome A) : Prop :=
  match o with
  | Done _ w' | Undefined w' => P w'
  | Thrown _ _ | Waiting _ => False
  end.

Lemma contained_impl {A} (P Q : World -> Prop) (o : Outcome A) :
  (forall w, P w -> Q w) -> contained P o -> contained Q o.
Proof. intros H. destruct o; simpl; auto. Qed.

(** What [clampVelocities] leaves alone. *)
Definition clamp_frame (w w' : World) : Prop :=
  log w' = log w /\
  hasNewGoal_ (node w') = hasNewGoal_ (node w) /\
  axes_ (node w') = axes_ (node w).

Lemma clamp_loop_contained (maxv : list double) (idx : list nat) (w : World) :
  contained (clamp_frame w)
    (for_each idx (fun i =>
       vel <- get velocities_ ;;
       v <- at_ vel i ;;
       m <- at_ maxv i ;;
       vel <- store vel i (ToRange v (- m)%Q m) ;;
       modify (with_velocities_ vel)) w).
Proof.
  revert w. induction idx as [|i idx IH]; intros w; simpl.
  - repeat split.
  - unfold bind, get, at_, store, ret, modify, undefined in *.
    destruct (velocities_ (node w) !! i) as [v|]; [| repeat split].
    destruct (maxv !! i) as [m|]; [| repeat split].
    destruct (_ <? _)%nat; [| repeat split].
    eapply contained_impl; [| apply IH].
    intros w' (Hlog & Hflag & Haxes). simpl in *. repeat split; assumption.
Qed.

Lemma clampVelocities_contained (w : World) :
  contained (clamp_frame w) (clampVelocities w).
Proof.
  exact (clamp_loop_contained (max_velocities_ (node w))
           (seq 0 (length (max_velocities_ (node w)))) w).
Qed.

(** The events [updateSdh] logs when it finds a goal: the call of [Stop]
    with the slot full, then events in which the slot is full exactly
    during the dispatch calls. *)
Definition dispatched_first (w w' : World) : Prop :=
  exists new,
    log w' = log w ++ Call Stop true :: new /\ Forall call_sees_dispatch new.

Ltac solve_dispatched :=
  simpl in *; unfold clamp_frame in *; simpl in *;
  repeat match goal with
         | H : _ /\ _ |- _ => destruct H
         | H : log _ = _ |- _ => rewrite H
         | H : hasNewGoal_ _ = _ |- _ => rewrite H
         end;
  rewrite <- ?app_assoc; simpl;
  try (split; [reflexivity |]);
  eexists; (split; [reflexivity |]);
  repeat constructor; first [intros ? ? [= <- <-]; reflexivity | intros ? ? [=]].

(** The block that dispatches a pending goal: every call it makes is made
    with [hasNewGoal_] still true, no exception leaves it, and when it
    returns [hasNewGoal_] is false. *)
Lemma dispatch_goal_pending (w : World) :
  hasNewGoal_ (node w) = true ->
  match dispatch_goal w with
  | Done _ w' => hasNewGoal_ (node w') = false /\ dispatched_first w w'
  | Undefined w' => dispatched_first w w'
  | Thrown _ _ | Waiting _ => False
  end.
Proof.
  intros Hflag. unfold dispatch_goal, dispatched_first. unfold_prims.
  rewrite Hflag. simpl.
  destruct (sdh_command sdh_ (calls_of (log w)) Stop); simpl;
    (destruct (String.eqb (operationMode_ (node w)) "position"); simpl;
     [ repeat (match goal with
               | |- context [match sdh_command ?d ?l ?c with _ => _ end] =>
                   destruct (sdh_command d l c)
               end; simpl); rewrite ?Hflag; solve_dispatched
     | destruct (String.eqb (operationMode_ (node w)) "velocity"); simpl;
       [ match goal with
         | |- context [clampVelocities ?w1] =>
             pose proof (clampVelocities_contained w1) as Hc;
             destruct (clampVelocities w1) as [u w2|e w2|w2|w2]; simpl in Hc;
             try contradiction
         end; simpl;
         repeat (match goal with
                 | |- context [match sdh_command ?d ?l ?c with _ => _ end] =>
                     destruct (sdh_command d l c)
                 end; simpl); rewrite ?Hflag; solve_dispatched
       | destruct (String.eqb (operationMode_ (node w)) "effort"); simpl;
         rewrite ?Hflag; solve_dispatched ] ]).
Qed.

Ltac solve_after_dispatch :=
  unfold slot_empty, call_sees_dispatch in *;
  first [ assumption
        | reflexivity
        | intros ? ? [= <- <-]; simpl; assumption
        | intros ? ? [=] ].

(** After the slot is cleared the calls are the reads, made with the slot
    empty. *)
Lemma read_and_publish_keeps_empty (w : World) :
  slot_empty (node w) ->
  keeps slot_empty call_sees_dispatch w (read_and_publish w).
Proof.
  intros Hw. unfold read_and_publish.
  repeat keeps_step; solve_after_dispatch.
Qed.

Lemma publish_diagnostics_keeps (I : SdhNode -> Prop) (w : World) :
  I (node w) ->
  keeps I call_sees_dispatch w (publish_diagnostics w).
Proof.
  intros Hw. unfold publish_diagnostics.
  repeat keeps_step; first [assumption | intros ? ? [=]].
Qed.

Lemma dispatched_first_extends (w w1 w2 : World) :
  dispatched_first w w1 -> extends call_sees_dispatch w1 w2 ->
  dispatched_first w w2.
Proof.
  intros (n1 & H1 & F1) (n2 & H2 & F2). exists (n1 ++ n2). split.
  - rewrite H2, H1, <- app_assoc. reflexivity.
  - apply Forall_app. now split.
Qed.

(** C2, as the code has it: in a tick of the initialized node that finds
    [hasNewGoal_] set, the first thing logged is the call of [Stop], made
    with the slot still full; after it the slot is full during exactly the
    dispatch calls ([Stop], [SetAxisTargetAngle], [MoveHand],
    [SetAxisTargetVelocity]) and empty during the reads that follow: the
    slot is cleared after the dispatch.  It is cleared whether or not the
    dispatch calls threw: unless the dispatch stopped on an index out of
    range (in [clampVelocities]), [hasNewGoal_] is false when the tick
    ends, however it ends. *)
Theorem updateSdh_clears_after_dispatch (w : World) :
  isInitialized_ (node w) = true ->
  hasNewGoal_ (node w) = true ->
  dispatched_first w (world_of (updateSdh w)) /\
  ((forall w', dispatch_goal w <> Undefined w') ->
   hasNewGoal_ (node (world_of (updateSdh w))) = false).
Proof.
  intros Hinit Hflag.
  assert (Hrun : updateSdh w =
                 ((dispatch_goal ;; read_and_publish) ;; publish_diagnostics) w).
  { unfold updateSdh. unfold bind at 1, get at 1. now rewrite Hinit. }
  rewrite Hrun. clear Hrun.
  pose proof (dispatch_goal_pending w Hflag) as Hd.
  unfold bind.
  destruct (dispatch_goal w) as [u w1|e w1|w1|w1]; try contradiction.
  - destruct Hd as [Hw1 Hfirst].
    destruct (read_and_publish_keeps_empty w1 Hw1) as [Hi He].
    destruct (read_and_publish w1) as [u2 w2|e w2|w2|w2]; simpl in *.
    + destruct (publish_diagnostics_keeps slot_empty w2 Hi) as [Hi' He'].
      split; [| intros _; exact Hi'].
      eapply dispatched_first_extends; [| exact He'].
      eapply dispatched_first_extends; eassumption.
    + split; [| intros _; exact Hi].
      eapply dispatched_first_extends; eassumption.
    + split; [| intros _; exact Hi].
      eapply dispatched_first_extends; eassumption.
    + split; [| intros _; exact Hi].
      eapply dispatched_first_extends; eassumption.
  - simpl. split; [exact Hd |]. intros H. now destruct (H w1).
Qed.

(** ** What no operation changes *)

Section Frame.

(** A property [I] of the members that no assignment of the node can
    break and that implies that [isError_] is false, and a property [E] of
    events that holds of every event except a diagnostics message of a
    level other than 0 and 1. *)
Variable I : SdhNode -> Prop.
Variable E : Event -> Prop.

Hypothesis I_state : forall v n, I n -> I (with_state_ v n).
Hypothesis I_isInitialized : forall v n, I n -> I (with_isInitialized_ v n).
Hypothesis I_targetAngles : forall v n, I n -> I (with_targetAngles_ v n).
Hypothesis I_velocities : forall v n, I n -> I (with_velocities_ v n).
Hypothesis I_hasNewGoal : forall v n, I n -> I (with_hasNewGoal_ v n).
Hypothesis I_operationMode : forall v n, I n -> I (with_operationMode_ v n).
Hypothesis I_max_velocities : forall v n, I n -> I (with_max_velocities_ v n).
Hypothesis I_no_error : forall n, I n -> isError_ n = false.
Hypothesis E_other :
  forall e, (forall level name text, e <> PubDiagnostics level name text) -> E e.
Hypothesis E_diagnostics :
  forall level name text, level = 0 \/ level = 1 -> E (PubDiagnostics level name text).

Ltac solve_frame :=
  first [ assumption
        | apply I_state; assumption
        | apply I_isInitialized; assumption
        | apply I_targetAngles; assumption
        | apply I_velocities; assumption
        | apply I_hasNewGoal; assumption
        | apply I_operationMode; assumption
        | apply I_max_velocities; assumption
        | apply E_other; discriminate ].

Lemma switchOperationMode_frame mode w :
  I (node w) -> keeps I E w (switchOperationMode mode w).
Proof. intros Hw. unfold switchOperationMode. repeat keeps_step; solve_frame. Qed.

Lemma srvCallback_Init_frame w :
  I (node w) -> keeps I E w (srvCallback_Init w).
Proof.
  intros Hw. unfold srvCallback_Init.
  repeat keeps_step; first [solve_frame | apply switchOperationMode_frame; solve_frame].
Qed.

Lemma srvCallback_Stop_frame w :
  I (node w) -> keeps I E w (srvCallback_Stop w).
Proof. intros Hw. unfold srvCallback_Stop. repeat keeps_step; solve_frame. Qed.

Lemma srvCallback_SetOperationMode_frame data w :
  I (node w) -> keeps I E w (srvCallback_SetOperationMode data w).
Proof.
  intros Hw. unfold srvCallback_SetOperationMode.
  repeat keeps_step; first [solve_frame | apply switchOperationMode_frame; solve_frame].
Qed.

Lemma srvCallback_EmergencyStop_frame w :
  I (node w) -> keeps I E w (srvCallback_EmergencyStop w).
Proof. intros Hw. unfold srvCallback_EmergencyStop. repeat keeps_step; solve_frame. Qed.

Lemma srvCallback_Disconnect_frame w :
  I (node w) -> keeps I E w (srvCallback_Disconnect w).
Proof. intros Hw. unfold srvCallback_Disconnect. repeat keeps_step; solve_frame. Qed.

Lemma srvCallback_MotorPowerOn_frame w :
  I (node w) -> keeps I E w (srvCallback_MotorPowerOn w).
Proof. intros Hw. unfold srvCallback_MotorPowerOn. repeat keeps_step; solve_frame. Qed.

Lemma srvCallback_MotorPowerOff_frame w :
  I (node w) -> keeps I E w (srvCallback_MotorPowerOff w).
Proof. intros Hw. unfold srvCallback_MotorPowerOff. repeat keeps_step; solve_frame. Qed.

Lemma topicCallback_setVelocitiesRaw_frame data w :
  I (node w) -> keeps I E w (topicCallback_setVelocitiesRaw data w).
Proof.
  intros Hw. unfold topicCallback_setVelocitiesRaw. repeat keeps_step; solve_frame.
Qed.

Lemma clampVelocities_frame w :
  I (node w) -> keeps I E w (clampVelocities w).
Proof.
  intros Hw. unfold clampVelocities, for_. apply keeps_get_bind.
  apply keeps_for_each; [| exact Hw].
  intros i w' Hw'. repeat keeps_step; solve_frame.
Qed.

Lemma dispatch_goal_frame w :
  I (node w) -> keeps I E w (dispatch_goal w).
Proof.
  intros Hw. unfold dispatch_goal.
  repeat keeps_step; first [solve_frame | apply clampVelocities_frame; solve_frame].
Qed.

Lemma read_and_publish_frame w :
  I (node w) -> keeps I E w (read_and_publish w).
Proof. intros Hw. unfold read_and_publish. repeat keeps_step; solve_frame. Qed.

Lemma publish_diagnostics_frame w :
  I (node w) -> keeps I E w (publish_diagnostics w).
Proof.
  intros Hw. unfold publish_diagnostics.
  apply keeps_get_bind. rewrite (I_no_error _ Hw).
  repeat keeps_step; first [solve_frame | apply E_diagnostics; auto].
Qed.

Lemma updateSdh_frame w :
  I (node w) -> keeps I E w (updateSdh w).
Proof.
  intros Hw. unfold updateSdh.
  repeat keeps_step;
    first [ solve_frame
          | apply dispatch_goal_frame; solve_frame
          | apply read_and_publish_frame; solve_frame
          | apply publish_diagnostics_frame; solve_frame ].
Qed.

Lemma run_main_frame op w :
  I (node w) -> keeps I E w (run_main op w).
Proof.
  intros Hw. destruct op; simpl;
    first [ now apply updateSdh_frame
          | now apply topicCallback_setVelocitiesRaw_frame
          | apply keeps_bind; [| intros; now apply keeps_ret] ].
  - now apply srvCallback_Init_frame.
  - now apply srvCallback_Stop_frame.
  - now apply srvCallback_Init_frame.
  - now apply srvCallback_SetOperationMode_frame.
  - now apply srvCallback_EmergencyStop_frame.
  - now apply srvCallback_Disconnect_frame.
  - now apply srvCallback_MotorPowerOn_frame.
  - now apply srvCallback_MotorPowerOff_frame.
Qed.

Lemma usleep_frame s w :
  I (node w) -> keeps I E w (usleep s w).
Proof.
  intros Hw. unfold usleep. apply keeps_for_each; [| exact Hw].
  intros op w' Hw'. now apply run_main_frame.
Qed.

Lemma wait_for_slot_frame sched w :
  I (node w) -> keeps I E w (wait_for_slot sched w).
Proof.
  revert w. induction sched as [|s sched IH]; intros w Hw; simpl;
    repeat keeps_step; first [solve_frame | now apply usleep_frame | now apply IH].
Qed.

Lemma wait_for_idle_frame sched available w :
  I (node w) -> keeps I E w (wait_for_idle available sched w).
Proof.
  revert available w. induction sched as [|s sched IH]; intros available w Hw; simpl;
    repeat keeps_step; first [solve_frame | now apply usleep_frame | now apply IH].
Qed.

Lemma install_target_frame goal w :
  I (node w) -> keeps I E w (install_target goal w).
Proof. intros Hw. unfold install_target. repeat keeps_step; solve_frame. Qed.

Lemma executeCB_frame goal sched w :
  I (node w) -> keeps I E w (executeCB goal sched w).
Proof.
  intros Hw. unfold executeCB.
  repeat keeps_step;
    first [ solve_frame
          | now apply wait_for_slot_frame
          | now apply install_target_frame
          | now apply usleep_frame
          | now apply wait_for_idle_frame ].
Qed.

Lemma run_frame op w :
  I (node w) -> keeps I E w (run op w).
Proof.
  intros Hw. destruct op; simpl;
    [now apply run_main_frame | now apply executeCB_frame].
Qed.

End Frame.

(** ** The error flag and the diagnostics level *)

(** The worlds the node can be in: after [init], and after any operation
    from a world it can be in, however the operation ended. *)
Inductive reachable : World -> Prop :=
| reachable_start (name ns : string) (p : Params) (n : SdhNode) :
    init name ns p = Some n -> reachable (start n)
| reachable_run (op : Op) (w : World) :
    reachable w -> reachable (world_of (run op w)).

Definition no_error (n : SdhNode) : Prop := isError_ n = false.

Definition diagnostics_ok (e : Event) : Prop :=
  forall level name text,
    e = PubDiagnostics level name text -> level = 0 \/ level = 1.

Definition not_diagnostics (e : Event) : Prop :=
  forall level name text, e <> PubDiagnostics level name text.

(** The diagnostics message of a tick, given [isInitialized_]. *)
Definition diagnostics_of (initialized : bool) (ns : string) : Event :=
  if initialized then PubDiagnostics 0 ns "sdh initialized and running"
  else PubDiagnostics 1 ns "sdh not initialized".

Lemma init_no_error name ns p n : init name ns p = Some n -> no_error n.
Proof.
  unfold init. destruct (p_joint_names p); [| discriminate].
  intros [= <-]. reflexivity.
Qed.

Lemma reachable_invariant w :
  reachable w -> no_error (node w) /\ Forall diagnostics_ok (log w).
Proof.
  induction 1 as [name ns p n Hinit | op w Hw [IHn IHl]].
  - split; [now apply (init_no_error name ns p) | constructor].
  - destruct (run_frame no_error diagnostics_ok) with (op := op) (w := w)
      as [Hn (new & Hlog & Hnew)]; unfold no_error, diagnostics_ok in *;
      try (simpl; auto; fail).
    + intros e He level name text ->. now destruct (He level name text).
    + intros level name text Hl l' n' t' [= <- <- <-]. exact Hl.
    + split; [exact Hn |]. rewrite Hlog. apply Forall_app. now split.
Qed.

(** A tick that returns has published, last, the diagnostics message for
    the value [isInitialized_] had when the tick began, and no other
    diagnostics message. *)
Lemma updateSdh_diagnostics w w' :
  no_error (node w) ->
  updateSdh w = Done tt w' ->
  exists before,
    log w' = log w ++ before ++
             [diagnostics_of (isInitialized_ (node w)) (nh_namespace (node w))] /\
    Forall not_diagnostics before.
Proof.
  intros Hw Hrun. unfold updateSdh in Hrun.
  apply bind_Done in Hrun as (b & w0 & Hget & Hrun). injection Hget as <- <-.
  apply bind_Done in Hrun as (u & w1 & Hbody & Hdiag).
  set (I := fun n => isInitialized_ n = isInitialized_ (node w) /\
                     nh_namespace n = nh_namespace (node w) /\
                     isError_ n = false).
  assert (Hk : keeps I not_diagnostics w
                 ((if isInitialized_ (node w)
                   then dispatch_goal ;; read_and_publish else ret tt) w)).
  { assert (HI : I (node w)) by (repeat split; exact Hw).
    destruct (isInitialized_ (node w)) eqn:Hinit; [| now apply keeps_ret].
    apply keeps_bind.
    - apply dispatch_goal_frame; unfold I; simpl; auto.
    - intros a w2 _ Hw2. apply read_and_publish_frame; unfold I; simpl; auto. }
  rewrite Hbody in Hk. destruct Hk as [(Hinit & Hns & Herr) (before & Hlog & Hbefore)].
  simpl in *. exists before. split; [| exact Hbefore].
  revert Hdiag. unfold publish_diagnostics. unfold_prims.
  rewrite Herr, Hinit, Hns.
  unfold diagnostics_of.
  destruct (isInitialized_ (node w)); intros [= <-]; simpl;
    now rewrite Hlog, <- app_assoc.
Qed.

(** C10: in every world the node can be in, [isError_] is false and no
    diagnostics message in the log has a level other than 0 and 1 (so none
    has level 2); and a tick from such a world that returns publishes
    exactly one diagnostics message, of level 0 when [isInitialized_] is
    true and of level 1 when it is false. *)
Theorem isError_never_set (w : World) :
  reachable w ->
  isError_ (node w) = false /\
  Forall diagnostics_ok (log w) /\
  (forall w', updateSdh w = Done tt w' ->
     exists before,
       log w' = log w ++ before ++
                [diagnostics_of (isInitialized_ (node w)) (nh_namespace (node w))] /\
       Forall not_diagnostics before).
Proof.
  intros Hw. destruct (reachable_invariant w Hw) as [Hn Hl].
  split; [exact Hn |]. split; [exact Hl |].
  intros w'. now apply updateSdh_diagnostics.
Qed.

(** ** Clamping of a velocity goal *)

Lemma ToRange_symmetric (v m : double) :
  (0 <= m)%Q ->
  (- m <= ToRange v (- m) m <= m)%Q /\
  ((- m <= v <= m)%Q -> ToRange v (- m)%Q m = v).
Proof.
  intros Hm. unfold ToRange.
  destruct (Qlt_le_dec v (- m)) as [Hlo | Hlo].
  - split; [lra | intros [H _]; lra].
  - destruct (Qlt_le_dec m v) as [Hhi | Hhi].
    + split; [lra | intros [_ H]; lra].
    + split; [lra | reflexivity].
Qed.

Definition not_velocity_call (e : Event) : Prop :=
  forall axes vs p, e <> Call (SetAxisTargetVelocity axes vs) p.

Lemma read_and_publish_no_velocity_call (w : World) :
  keeps (fun _ => True) not_velocity_call w (read_and_publish w).
Proof.
  unfold read_and_publish.
  repeat keeps_step; first [exact Logic.I | intros ? ? ?; discriminate].
Qed.

Lemma publish_diagnostics_no_velocity_call (w : World) :
  keeps (fun _ => True) not_velocity_call w (publish_diagnostics w).
Proof.
  unfold publish_diagnostics.
  repeat keeps_step; first [exact Logic.I | intros ? ? ?; discriminate].
Qed.

(** The vector the loop of [clampVelocities] computes. *)
Definition clamp_at (maxv vel : list double) (i : nat) : list double :=
  match vel !! i, maxv !! i with
  | Some v, Some m => <[i := ToRange v (- m)%Q m]> vel
  | _, _ => vel
  end.

(** With every index in range the loop of [clampVelocities] returns. *)
Lemma clamp_loop_done (maxv : list double) (idx : list nat) (w : World) :
  Forall (fun i => (i < length (velocities_ (node w)))%nat /\
                   (i < length maxv)%nat) idx ->
  exists w',
    for_each idx (fun i =>
       vel <- get velocities_ ;;
       v <- at_ vel i ;;
       m <- at_ maxv i ;;
       vel <- store vel i (ToRange v (- m)%Q m) ;;
       modify (with_velocities_ vel)) w = Done tt w' /\
    clamp_frame w w' /\
    velocities_ (node w') = foldl (clamp_at maxv) (velocities_ (node w)) idx.
Proof.
  revert w. induction idx as [|i idx IH]; intros w Hidx; simpl.
  - exists w. repeat split.
  - apply Forall_cons in Hidx as [[Hv Hm] Hidx].
    destruct (lookup_lt_is_Some_2 _ _ Hv) as [v Hv'].
    destruct (lookup_lt_is_Some_2 _ _ Hm) as [m Hm'].
    apply Nat.ltb_lt in Hv.
    unfold bind, get, at_, store, ret, modify, undefined in *.
    unfold clamp_at at 2. rewrite Hv', Hm', Hv.
    match goal with
    | |- context [for_each idx ?b ?w1] =>
        destruct (IH w1) as (w' & Hrun & (Hlog & Hflag & Haxes) & Hvel)
    end.
    { simpl. rewrite length_insert. apply Nat.ltb_lt in Hv. exact Hidx. }
    exists w'. simpl in *. split; [exact Hrun |]. repeat split; assumption.
Qed.

(** The dispatch of a velocity goal of seven components against seven
    maximum velocities: [Stop], then one [SetAxisTargetVelocity] with each
    component passed through [ToRange]. *)
Lemma dispatch_goal_velocity (w : World) v0 v1 v2 v3 v4 v5 v6 m0 m1 m2 m3 m4 m5 m6 :
  hasNewGoal_ (node w) = true ->
  operationMode_ (node w) = "velocity" ->
  velocities_ (node w) = [v0; v1; v2; v3; v4; v5; v6] ->
  max_velocities_ (node w) = [m0; m1; m2; m3; m4; m5; m6] ->
  let sent := [ToRange v0 (- m0)%Q m0; ToRange v1 (- m1)%Q m1;
               ToRange v2 (- m2)%Q m2; ToRange v3 (- m3)%Q m3;
               ToRange v4 (- m4)%Q m4; ToRange v5 (- m5)%Q m5;
               ToRange v6 (- m6)%Q m6] in
  exists w1 before after,
    dispatch_goal w = Done tt w1 /\
    log w1 = log w ++ before ++
             Call (SetAxisTargetVelocity (axes_ (node w)) sent) true :: after /\
    Forall not_velocity_call before /\ Forall not_velocity_call after.
Proof.
  intros Hflag Hmode Hvel Hmax sent.
  unfold dispatch_goal, clampVelocities, for_.
  unfold bind at 1, get at 1. rewrite Hflag. unfold bind at 1, get at 1.
  unfold bind at 1.
  assert (Hstop : exists w0 before,
             try_catch (command Stop) log_exception w = Done tt w0 /\
             node w0 = node w /\ log w0 = log w ++ before /\
             Forall not_velocity_call before).
  { unfold_prims.
    destruct (sdh_command sdh_ (calls_of (log w)) Stop) as [[]|what];
      eexists; eexists; (split; [reflexivity |]); simpl;
      (split; [reflexivity |]); rewrite <- ?app_assoc;
      (split; [reflexivity |]); repeat constructor; intros ? ? ?; discriminate. }
  destruct Hstop as (w0 & before & -> & Hn0 & Hl0 & Hbefore).
  unfold bind at 1, get at 1. rewrite Hn0, Hmode. simpl String.eqb. cbv iota.
  unfold bind at 1. unfold try_catch. unfold bind at 1. unfold bind at 1, get at 1.
  rewrite Hn0, Hmax.
  destruct (clamp_loop_done [m0; m1; m2; m3; m4; m5; m6]
              (seq 0 (length [m0; m1; m2; m3; m4; m5; m6])) w0)
    as (w1 & -> & (Hl1 & Hf1 & Ha1) & Hv1).
  { rewrite Hn0, Hvel. simpl. repeat constructor. }
  rewrite Hn0, Hvel in Hv1. change (velocities_ (node w1) = sent) in Hv1.
  unfold bind at 1, get at 1. rewrite Hv1.
  unfold command, invoke. rewrite Hf1, Hn0, Hflag.
  destruct (sdh_command sdh_ (calls_of (log w1)) _);
    unfold modify, log_exception, ROS_ERROR, emit; simpl;
    rewrite Hl1, Hl0, <- ?app_assoc; simpl.
  - eexists; exists before, []. repeat split; [assumption | constructor].
  - eexists; exists before; eexists. repeat split; [assumption |].
    repeat constructor. intros ? ? ?; discriminate.
Qed.

(** When the node holds a maximum velocity for each axis the clamp works:
    in a tick of the initialized node that finds a velocity goal (the
    mode is "velocity", [hasNewGoal_] is set) of seven components, with
    seven maximum velocities none of which is negative, exactly one
    [SetAxisTargetVelocity] reaches the device; each component [s] it sends
    lies in [[-m, m]] for the maximum velocity [m] of its axis, and is the
    stored component [v] itself when [v] already lies in [[-m, m]]. *)
Theorem updateSdh_clamps_velocities (w : World) :
  isInitialized_ (node w) = true ->
  hasNewGoal_ (node w) = true ->
  operationMode_ (node w) = "velocity" ->
  length (velocities_ (node w)) = 7%nat ->
  length (max_velocities_ (node w)) = 7%nat ->
  (forall m, In m (max_velocities_ (node w)) -> (0 <= m)%Q) ->
  exists sent before after,
    log (world_of (updateSdh w)) =
      log w ++ before ++
      Call (SetAxisTargetVelocity (axes_ (node w)) sent) true :: after /\
    Forall not_velocity_call before /\ Forall not_velocity_call after /\
    length sent = 7%nat /\
    forall i v m,
      velocities_ (node w) !! i = Some v ->
      max_velocities_ (node w) !! i = Some m ->
      exists s, sent !! i = Some s /\
                (- m <= s <= m)%Q /\
                ((- m <= v <= m)%Q -> s = v).
Proof.
  intros Hinit Hflag Hmode Hlv Hlm Hpos.
  destruct (velocities_ (node w))
    as [|v0 [|v1 [|v2 [|v3 [|v4 [|v5 [|v6 [|]]]]]]]] eqn:Hvel; try discriminate.
  destruct (max_velocities_ (node w))
    as [|m0 [|m1 [|m2 [|m3 [|m4 [|m5 [|m6 [|]]]]]]]] eqn:Hmax; try discriminate.
  destruct (dispatch_goal_velocity w _ _ _ _ _ _ _ _ _ _ _ _ _ _ Hflag Hmode Hvel Hmax)
    as (w1 & before & after & Hrun & Hlog & Hbefore & Hafter).
  assert (Hrest : extends not_velocity_call w1 (world_of (updateSdh w))).
  { unfold updateSdh. unfold bind at 1, get at 1. rewrite Hinit.
    unfold bind. rewrite Hrun.
    destruct (read_and_publish_no_velocity_call w1) as [_ He].
    destruct (read_and_publish w1) as [u w2|e w2|w2|w2]; simpl in *; try exact He.
    eapply extends_trans; [exact He |].
    apply publish_diagnostics_no_velocity_call. }
  destruct Hrest as (rest & Hlog' & Hrest).
  match type of Hlog with
  | context [SetAxisTargetVelocity _ ?s] => exists s
  end.
  exists before, (after ++ rest).
  split; [| split; [exact Hbefore | split; [now apply Forall_app | split; [reflexivity |]]]].
  - rewrite Hlog', Hlog, <- !app_assoc. reflexivity.
  - intros i v m Hv Hm.
    assert (Hm0 : (0 <= m)%Q).
    { apply Hpos. apply list_elem_of_In. eapply list_elem_of_lookup_2. exact Hm. }
    destruct i as [|[|[|[|[|[|[|i]]]]]]]; simpl in Hv, Hm; try discriminate;
      injection Hv as <-; injection Hm as <-;
      (eexists; split; [reflexivity | now apply ToRange_symmetric]).
Qed.

(** ** The two index tables and the round trip of a position *)

(** The relative error of [a] as an approximation of [t] is at most [d]. *)
Definition within (d a t : Q) : Prop := (Qabs (a - t) <= d * Qabs t)%Q.

Lemma within_Qeq (d d' a t t' : Q) :
  (d == d')%Q -> (t == t')%Q -> within d a t -> within d' a t'.
Proof. unfold within. intros Hd Ht H. now rewrite <- Hd, <- Ht. Qed.

Lemma within_exact (a t : Q) : within 0 a t -> (a == t)%Q.
Proof.
  unfold within. intros H. rewrite Qmult_0_l in H.
  assert (H0 : (Qabs (a - t) == 0)%Q).
  { apply Qle_antisym; [exact H | apply Qabs_nonneg]. }
  revert H0.
  apply Qabs_case; intros; lra.
Qed.

Section Rounding.

(** The standard model of rounding: the relative error of one operation
    is at most [eps]. *)
Variable eps : Q.
Hypothesis eps_nonneg : (0 <= eps)%Q.
Hypothesis rnd_error : forall x, (Qabs (rnd x - x) <= eps * Qabs x)%Q.

Lemma within_dmul (d a t k : Q) :
  (0 <= d)%Q -> within d a t ->
  within ((1 + d) * (1 + eps) - 1) (dmul a k) (t * k).
Proof.
  unfold within, dmul. intros Hd Ha.
  pose proof (rnd_error (a * k)) as Hr.
  assert (H1 : (Qabs (rnd (a * k) - t * k) <=
                Qabs (rnd (a * k) - a * k) + Qabs ((a - t) * k))%Q).
  { assert (Heq : (rnd (a * k) - t * k ==
                   (rnd (a * k) - a * k) + (a - t) * k)%Q) by ring.
    rewrite Heq. apply Qabs_triangle. }
  assert (H2 : (Qabs a <= Qabs t + Qabs (a - t))%Q).
  { assert (Heq : (a == t + (a - t))%Q) by ring.
    rewrite Heq at 1. apply Qabs_triangle. }
  rewrite !Qabs_Qmult in *.
  pose proof (Qabs_nonneg t) as Ht. pose proof (Qabs_nonneg k) as Hk.
  pose proof (Qabs_nonneg (a - t)) as Hat.
  generalize dependent (Qabs (rnd (a * k) - t * k)).
  generalize dependent (Qabs (rnd (a * k) - a * k)).
  generalize dependent (Qabs (a - t)). generalize dependent (Qabs a).
  generalize dependent (Qabs t). generalize dependent (Qabs k).
  intros K HK T HT A D HD HA HD0 X HX Y HY.
  assert (H3 : (A * K <= (T + D) * K)%Q) by nra.
  assert (H4 : (D * K <= d * T * K)%Q) by nra.
  assert (H5 : (eps * (A * K) <= eps * ((T + D) * K))%Q) by nra.
  assert (H6 : (eps * (D * K) <= eps * (d * T * K))%Q) by nra.
  nra.
Qed.

Lemma within_ddiv (d a t k : Q) :
  (0 <= d)%Q -> within d a t ->
  within ((1 + d) * (1 + eps) - 1) (ddiv a k) (t / k).
Proof. intros Hd Ha. unfold ddiv, Qdiv. now apply within_dmul. Qed.

(** Four operations take a value to degrees and back; each adds a
    relative error of at most [eps]. *)
Definition round_trip_bound : Q :=
  ((1 + eps) * (1 + eps) * (1 + eps) * (1 + eps) - 1)%Q.

Lemma round_trip_within (x : double) :
  within round_trip_bound (to_radians (to_degrees x)) x.
Proof.
  assert (H0 : within 0 x x).
  { unfold within. assert (Heq : (x - x == 0)%Q) by ring.
    rewrite Heq, Qmult_0_l. apply Qle_refl. }
  unfold to_radians, to_degrees.
  pose proof (within_dmul _ _ _ 180%Q (Qle_refl 0) H0) as H1.
  assert (Hd1 : (0 <= (1 + 0) * (1 + eps) - 1)%Q) by lra.
  pose proof (within_ddiv _ _ _ pi_ Hd1 H1) as H2.
  assert (Hd2 : (0 <= (1 + ((1 + 0) * (1 + eps) - 1)) * (1 + eps) - 1)%Q) by nra.
  pose proof (within_dmul _ _ _ pi_ Hd2 H2) as H3.
  assert (Hd3 : (0 <= (1 + ((1 + ((1 + 0) * (1 + eps) - 1)) * (1 + eps) - 1))
                      * (1 + eps) - 1)%Q) by nra.
  pose proof (within_ddiv _ _ _ 180%Q Hd3 H3) as H4.
  eapply within_Qeq; [| | exact H4].
  - unfold round_trip_bound. ring.
  - unfold pi_. field.
Qed.

End Rounding.


(** The dictionary of a goal that names the joints in [joint_order]. *)
Lemma dict_joint_order :
  let dict := make_dict joint_order in
  dict_at dict "sdh_knuckle_joint" = 0%nat /\
  dict_at dict "sdh_thumb_2_joint" = 1%nat /\
  dict_at dict "sdh_thumb_3_joint" = 2%nat /\
  dict_at dict "sdh_finger_12_joint" = 3%nat /\
  dict_at dict "sdh_finger_13_joint" = 4%nat /\
  dict_at dict "sdh_finger_22_joint" = 5%nat /\
  dict_at dict "sdh_finger_23_joint" = 6%nat.
Proof. vm_compute. repeat split. Qed.

(** The two tables are permutations of the indices 0..6 and inverse to
    each other. *)
Lemma tables_inverse :
  to_device_table ≡ₚ seq 0 7 /\
  from_device_table ≡ₚ seq 0 7 /\
  (forall j a, from_device_table !! j = Some a <-> to_device_table !! a = Some j).
Proof.
  split; [| split].
  - apply (bool_decide_unpack (to_device_table ≡ₚ seq 0 7)). vm_compute. exact Logic.I.
  - apply (bool_decide_unpack (from_device_table ≡ₚ seq 0 7)). vm_compute. exact Logic.I.
  - intros j a. split; intros H.
    + destruct j as [|[|[|[|[|[|[|j]]]]]]]; simpl in H; try discriminate;
        injection H as <-; reflexivity.
    + destruct a as [|[|[|[|[|[|[|a]]]]]]]; simpl in H; try discriminate;
        injection H as <-; reflexivity.
Qed.

(** [install_target] on a goal that names the joints in [joint_order]
    reads the positions through [to_device_table]. *)
Lemma install_target_joint_order (p0 p1 p2 p3 p4 p5 p6 : double) (w : World) :
  DOF_ (node w) = 7%nat ->
  let sent := [p0; p1; p2; p3; p4; p5; p6] in
  install_target {| joint_names := joint_order; points := [sent] |} w =
  Done tt {| node := with_targetAngles_
                       ((fun j => to_degrees (nth j sent 0%Q)) <$> to_device_table)
                       (node w);
             log := log w |}.
Proof.
  intros Hdof sent. unfold install_target.
  cbv beta iota delta [joint_names points].
  destruct dict_joint_order as (-> & -> & -> & -> & -> & -> & ->).
  unfold bind at 1, get at 1. rewrite Hdof. unfold bind at 1, get at 1.
  assert (Hlen : length (resize_ 0%Q 7 (targetAngles_ (node w))) = 7%nat).
  { unfold resize_. rewrite length_app, length_take, length_replicate. lia. }
  destruct (resize_ 0%Q 7 (targetAngles_ (node w)))
    as [|t0 [|t1 [|t2 [|t3 [|t4 [|t5 [|t6 [|]]]]]]]]; try discriminate.
  reflexivity.
Qed.

(** [topicCallback_setVelocitiesRaw] reads the seven raw velocities
    through [to_device_table] as well. *)
Lemma topicCallback_setVelocitiesRaw_table (d0 d1 d2 d3 d4 d5 d6 : double)
    (w : World) :
  isInitialized_ (node w) = true ->
  operationMode_ (node w) = "velocity" ->
  hasNewGoal_ (node w) = false ->
  length (velocities_ (node w)) = 7%nat ->
  let data := [d0; d1; d2; d3; d4; d5; d6] in
  topicCallback_setVelocitiesRaw data w =
  Done tt {| node := with_hasNewGoal_ true
                       (with_velocities_
                          ((fun j => to_degrees (nth j data 0%Q)) <$> to_device_table)
                          (node w));
             log := log w |}.
Proof.
  intros Hinit Hmode Hflag Hlen data. unfold topicCallback_setVelocitiesRaw.
  unfold bind at 1, get at 1. unfold bind at 1, get at 1.
  unfold bind at 1, get at 1. unfold bind at 1, get at 1.
  rewrite Hinit, Hmode, Hlen.
  change (negb true) with false. change (negb (length data =? 7)%nat) with false.
  change (negb ("velocity" =? "velocity")%string) with false. cbv iota.
  unfold bind at 1, get at 1. rewrite Hflag.
  destruct (velocities_ (node w))
    as [|t0 [|t1 [|t2 [|t3 [|t4 [|t5 [|t6 [|]]]]]]]]; try discriminate.
  reflexivity.
Qed.

(** [axes_to_joints] reads a vector of seven values through
    [from_device_table]. *)
Lemma axes_to_joints_table (a0 a1 a2 a3 a4 a5 a6 : double) (w : World) :
  let a := [a0; a1; a2; a3; a4; a5; a6] in
  axes_to_joints a (resize_ 0%Q 7 []) w =
  Done ((fun i => to_radians (nth i a 0%Q)) <$> from_device_table) w.
Proof. reflexivity. Qed.

(** C5: [to_device_table] and [from_device_table] are permutations of
    0..6 and inverse to each other.  A position goal of seven values in
    joint order is stored by [executeCB] through [to_device_table], in
    degrees; reading that vector back through [from_device_table], in
    radians, as [updateSdh] reads the angles of the device, gives the seven
    values again up to rounding: when every double operation has a relative
    error of at most [eps], each value comes back with a relative error of
    at most [(1 + eps)^4 - 1] (with exact arithmetic, unchanged). *)
Theorem position_round_trip (eps : Q) (p0 p1 p2 p3 p4 p5 p6 : double) (w : World) :
  (0 <= eps)%Q ->
  (forall x, Qabs (rnd x - x) <= eps * Qabs x)%Q ->
  DOF_ (node w) = 7%nat ->
  let sent := [p0; p1; p2; p3; p4; p5; p6] in
  let target := (fun j => to_degrees (nth j sent 0%Q)) <$> to_device_table in
  let back := (fun i => to_radians (nth i target 0%Q)) <$> from_device_table in
  install_target {| joint_names := joint_order; points := [sent] |} w =
    Done tt {| node := with_targetAngles_ target (node w); log := log w |} /\
  (forall w', axes_to_joints target (resize_ 0%Q 7 []) w' = Done back w') /\
  Forall2 (within (round_trip_bound eps)) back sent /\
  to_device_table ≡ₚ seq 0 7 /\
  from_device_table ≡ₚ seq 0 7 /\
  (forall j a, from_device_table !! j = Some a <-> to_device_table !! a = Some j).
Proof.
  intros Heps Hrnd Hdof sent target back.
  split; [now apply install_target_joint_order |].
  split; [intros w'; apply axes_to_joints_table |].
  split; [| exact tables_inverse].
  repeat constructor; simpl; now apply round_trip_within.
Qed.

(** ** The wait for the end of the motion *)

(** The loop over [state_] leaves in [finished] whether the last axis is
    idle; the axes before it do not count. *)
Lemma scan_states_last (st : list Z) (s : Z) (finished : bool) :
  scan_states (st ++ [s]) finished = (s =? 0).
Proof.
  unfold scan_states. rewrite foldl_app. simpl. now destruct (s =? 0).
Qed.

(** ** Exceptions of the reads in [updateSdh] *)

(** A tick of the initialized node does not return when the device throws
    on [GetAxisActualState]: the read is not inside a [try]. *)
Lemma updateSdh_state_read_not_caught (w : World) (what : string) :
  isInitialized_ (node w) = true ->
  (forall past axes, sdh_states sdh_ past (GetAxisActualState axes) = Throws what) ->
  forall w', updateSdh w <> Done tt w'.
Proof.
  intros Hinit Hdev w' Hrun. unfold updateSdh in Hrun.
  unfold bind at 1, get at 1 in Hrun. rewrite Hinit in Hrun.
  apply bind_Done in Hrun as (u & w1 & Hbody & _).
  apply bind_Done in Hbody as (u1 & w2 & _ & Hread).
  unfold read_and_publish in Hread.
  repeat (apply bind_Done in Hread as (? & ? & ? & Hread); cbv beta in Hread).
  match goal with
  | H : read_states _ _ = Done _ _ |- _ =>
      unfold read_states, invoke in H; rewrite Hdev in H; discriminate
  end.
Qed.

(** * Further properties of the node *)

(** ** Rejection of a velocity command *)

(** X1: a raw velocity command that arrives while the node is not
    initialized, or whose length differs from that of [velocities_], or
    while the mode is not "velocity", is dropped: the callback returns, the
    members are what they were, and the log grows by one error line, so no
    call into the device is made and [hasNewGoal_] is not set. *)
Theorem topicCallback_setVelocitiesRaw_rejects (data : list double) (w : World) :
  isInitialized_ (node w) = false \/
  length data <> length (velocities_ (node w)) \/
  operationMode_ (node w) <> "velocity" ->
  exists text,
    topicCallback_setVelocitiesRaw data w =
    Done tt {| node := node w; log := log w ++ [RosError text] |}.
Proof.
  intros H. unfold topicCallback_setVelocitiesRaw, bind, get. simpl.
  destruct (isInitialized_ (node w)) eqn:Hinit; simpl; [| eexists; reflexivity].
  destruct (length data =? length (velocities_ (node w)))%nat eqn:Hlen; simpl;
    [| eexists; reflexivity].
  apply Nat.eqb_eq in Hlen.
  destruct (String.eqb (operationMode_ (node w)) "velocity") eqn:Hmode; simpl;
    [| eexists; reflexivity].
  apply String.eqb_eq in Hmode.
  destruct H as [H | [H | H]]; [discriminate | contradiction | contradiction].
Qed.

(** ** What a tick sends to the device *)

Lemma calls_of_app (l1 l2 : list Event) :
  calls_of (l1 ++ l2) = calls_of l1 ++ calls_of l2.
Proof. unfold calls_of. apply omap_app. Qed.

(** An event that is not a dispatch call. *)
Definition not_dispatch (e : Event) : Prop :=
  forall c p, e = Call c p -> dispatch_call c = false.

Lemma read_and_publish_no_dispatch (w : World) :
  keeps (fun _ => True) not_dispatch w (read_and_publish w).
Proof.
  unfold read_and_publish.
  repeat keeps_step;
    first [exact Logic.I | intros ? ? [= <- <-]; reflexivity | intros ? ? [=]].
Qed.

Lemma publish_diagnostics_no_dispatch (w : World) :
  keeps (fun _ => True) not_dispatch w (publish_diagnostics w).
Proof.
  unfold publish_diagnostics.
  repeat keeps_step; first [exact Logic.I | intros ? ? [=]].
Qed.

Lemma no_dispatch_filter (new : list Event) :
  Forall not_dispatch new -> List.filter dispatch_call (calls_of new) = [].
Proof.
  induction 1 as [|e new He _ IH]; [reflexivity |].
  destruct e; simpl; try exact IH.
  rewrite (He c pending eq_refl). exact IH.
Qed.

(** After the dispatch block a tick makes no dispatch call. *)
Lemma updateSdh_after_dispatch (w w1 : World) :
  isInitialized_ (node w) = true ->
  dispatch_goal w = Done tt w1 ->
  extends not_dispatch w1 (world_of (updateSdh w)).
Proof.
  intros Hinit Hrun. unfold updateSdh. unfold bind at 1, get at 1.
  rewrite Hinit. unfold bind. rewrite Hrun.
  destruct (read_and_publish_no_dispatch w1) as [_ He].
  destruct (read_and_publish w1) as [u w2|e w2|w2|w2]; simpl in *; try exact He.
  eapply extends_trans; [exact He |].
  apply publish_diagnostics_no_dispatch.
Qed.

(** The dispatch calls among the events a computation added. *)
Definition dispatched (w w' : World) (calls : list DevCall) : Prop :=
  exists new,
    log w' = log w ++ new /\
    List.filter dispatch_call (calls_of new) = calls.

Lemma dispatched_extends (w w1 w2 : World) (calls : list DevCall) :
  dispatched w w1 calls -> extends not_dispatch w1 w2 -> dispatched w w2 calls.
Proof.
  intros (n1 & H1 & F1) (n2 & H2 & F2). exists (n1 ++ n2). split.
  - now rewrite H2, H1, <- app_assoc.
  - rewrite calls_of_app, List.filter_app, F1, (no_dispatch_filter _ F2).
    apply app_nil_r.
Qed.

(** X2: a tick of the initialized node that finds a goal in position mode
    calls [Stop], then [SetAxisTargetAngle] with [axes_] and
    [targetAngles_], and then [MoveHand(false)] if and only if
    [SetAxisTargetAngle] returned; these are all its dispatch calls,
    whether or not [Stop] threw. *)
Theorem updateSdh_dispatches_position (w : World) :
  isInitialized_ (node w) = true ->
  hasNewGoal_ (node w) = true ->
  operationMode_ (node w) = "position" ->
  let set_target := SetAxisTargetAngle (axes_ (node w)) (targetAngles_ (node w)) in
  dispatched w (world_of (updateSdh w))
    (Stop :: set_target ::
     match sdh_command sdh_ (calls_of (log w) ++ [Stop]) set_target with
     | Returns _ => [MoveHand false]
     | Throws _ => []
     end).
Proof.
  intros Hinit Hflag Hmode set_target.
  assert (Hd : exists w1,
             dispatch_goal w = Done tt w1 /\
             dispatched w w1
               (Stop :: set_target ::
                match sdh_command sdh_ (calls_of (log w) ++ [Stop]) set_target with
                | Returns _ => [MoveHand false]
                | Throws _ => []
                end)).
  { unfold dispatch_goal, dispatched. unfold_prims. rewrite Hflag. simpl.
    destruct (sdh_command sdh_ (calls_of (log w)) Stop); simpl;
      rewrite Hmode; simpl; rewrite ?calls_of_app; simpl; rewrite ?app_nil_r;
      fold set_target;
      destruct (sdh_command sdh_ (calls_of (log w) ++ [Stop]) set_target); simpl;
      repeat match goal with
             | |- context [match sdh_command ?d ?l ?c with _ => _ end] =>
                 destruct (sdh_command d l c); simpl
             end;
      eexists; (split; [reflexivity |]); simpl; rewrite <- ?app_assoc; simpl;
      eexists; (split; [reflexivity |]); rewrite Hflag; reflexivity. }
  destruct Hd as (w1 & Hrun & Hcalls).
  eapply dispatched_extends; [exact Hcalls |].
  now apply updateSdh_after_dispatch.
Qed.

(** The dispatch of a velocity goal when [max_velocities_] is not longer
    than [velocities_]: its dispatch calls are [Stop] and one
    [SetAxisTargetVelocity] with the vector the loop of [clampVelocities]
    leaves. *)
Lemma dispatch_goal_velocity_calls (w : World) :
  hasNewGoal_ (node w) = true ->
  operationMode_ (node w) = "velocity" ->
  (length (max_velocities_ (node w)) <= length (velocities_ (node w)))%nat ->
  exists w1,
    dispatch_goal w = Done tt w1 /\
    dispatched w w1
      [Stop;
       SetAxisTargetVelocity (axes_ (node w))
         (foldl (clamp_at (max_velocities_ (node w))) (velocities_ (node w))
            (seq 0 (length (max_velocities_ (node w)))))].
Proof.
  intros Hflag Hmode Hlen.
  unfold dispatch_goal, clampVelocities, for_.
  unfold bind at 1, get at 1. rewrite Hflag. unfold bind at 1, get at 1.
  unfold bind at 1.
  assert (Hstop : exists w0 before,
             try_catch (command Stop) log_exception w = Done tt w0 /\
             node w0 = node w /\ log w0 = log w ++ before /\
             List.filter dispatch_call (calls_of before) = [Stop]).
  { unfold_prims.
    destruct (sdh_command sdh_ (calls_of (log w)) Stop) as [[]|what];
      eexists; eexists; (split; [reflexivity |]); simpl;
      (split; [reflexivity |]); rewrite <- ?app_assoc;
      (split; reflexivity). }
  destruct Hstop as (w0 & before & -> & Hn0 & Hl0 & Hbefore).
  unfold bind at 1, get at 1. rewrite Hn0, Hmode. simpl String.eqb. cbv iota.
  unfold bind at 1. unfold try_catch. unfold bind at 1. unfold bind at 1, get at 1.
  rewrite Hn0.
  destruct (clamp_loop_done (max_velocities_ (node w))
              (seq 0 (length (max_velocities_ (node w)))) w0)
    as (w1 & -> & (Hl1 & Hf1 & Ha1) & Hv1).
  { rewrite Hn0. apply Forall_forall. intros i Hi.
    apply elem_of_seq in Hi. lia. }
  rewrite Hn0 in Hv1.
  unfold bind at 1, get at 1. rewrite Hv1.
  unfold command, invoke. rewrite Hf1, Hn0, Hflag.
  destruct (sdh_command sdh_ (calls_of (log w1)) _);
    unfold modify, log_exception, ROS_ERROR, emit; simpl;
    (eexists; split; [reflexivity |]); unfold dispatched; simpl;
    rewrite Hl1, Hl0, <- ?app_assoc;
    (eexists; split; [reflexivity |]);
    rewrite calls_of_app, List.filter_app, Hbefore; reflexivity.
Qed.

(** X3: a raw velocity command of seven values that arrives at the
    initialized node in velocity mode with the slot empty, while
    [velocities_] has seven entries and [max_velocities_] at most seven,
    is accepted, and the next tick sends it on: its dispatch calls are
    [Stop] and one [SetAxisTargetVelocity].  The component for each axis is
    the raw value the index table assigns to the axis, converted to
    degrees; it is clamped with the maximum velocity of the axis where
    [max_velocities_] has an entry for the axis, and goes out as it is
    where [max_velocities_] has none (it is empty after an [init] that
    failed on [GetAxisMaxVelocity]). *)
Theorem velocity_command_reaches_device (d0 d1 d2 d3 d4 d5 d6 : double)
    (w : World) :
  isInitialized_ (node w) = true ->
  operationMode_ (node w) = "velocity" ->
  hasNewGoal_ (node w) = false ->
  length (velocities_ (node w)) = 7%nat ->
  (length (max_velocities_ (node w)) <= 7)%nat ->
  let data := [d0; d1; d2; d3; d4; d5; d6] in
  let converted := (fun j => to_degrees (nth j data 0%Q)) <$> to_device_table in
  exists w1,
    topicCallback_setVelocitiesRaw data w = Done tt w1 /\
    hasNewGoal_ (node w1) = true /\
    dispatched w1 (world_of (updateSdh w1))
      [Stop;
       SetAxisTargetVelocity (axes_ (node w))
         (zip_with (fun v m => ToRange v (- m)%Q m)
            converted (max_velocities_ (node w)) ++
          drop (length (max_velocities_ (node w))) converted)].
Proof.
  intros Hinit Hmode Hflag Hlv Hlm data converted.
  pose proof (topicCallback_setVelocitiesRaw_table d0 d1 d2 d3 d4 d5 d6 w
                Hinit Hmode Hflag Hlv) as Hcb.
  eexists. split; [exact Hcb |]. split; [reflexivity |].
  match goal with
  | |- dispatched ?w1 _ _ =>
      destruct (dispatch_goal_velocity_calls w1) as (w2 & Hrun & Hcalls);
      [reflexivity | exact Hmode | simpl; lia |];
      eapply dispatched_extends;
      [| apply updateSdh_after_dispatch; [exact Hinit | exact Hrun]]
  end.
  simpl in Hcalls.
  destruct (max_velocities_ (node w))
    as [|m0 [|m1 [|m2 [|m3 [|m4 [|m5 [|m6 [|]]]]]]]];
    [exact Hcalls .. | simpl in Hlm; lia].
Qed.

(** ** The dictionary of [executeCB] *)

Lemma make_dict_snoc (names : list string) (name : string) :
  make_dict (names ++ [name]) = <[name := length names]> (make_dict names).
Proof.
  unfold make_dict. rewrite imap_app, foldl_app. simpl.
  now rewrite Nat.add_0_r.
Qed.

Lemma make_dict_lookup_snoc (names : list string) (x name : string) :
  make_dict (names ++ [x]) !! name =
  if decide (x = name) then Some (length names) else make_dict names !! name.
Proof. rewrite make_dict_snoc. apply lookup_insert. Qed.

Lemma make_dict_lookup_None (names : list string) (name : string) :
  name ∉ names -> make_dict names !! name = None.
Proof.
  induction names as [|x names IH] using rev_ind; intros Hnot.
  - reflexivity.
  - rewrite make_dict_lookup_snoc. destruct (decide (x = name)) as [-> | Hne].
    + exfalso. apply Hnot. apply elem_of_app. right. now left.
    + apply IH. intros Hin. apply Hnot. apply elem_of_app. now left.
Qed.

Lemma make_dict_lookup_last (names : list string) (name : string) (i : nat) :
  names !! i = Some name ->
  (forall j, (i < j)%nat -> names !! j <> Some name) ->
  make_dict names !! name = Some i.
Proof.
  revert i. induction names as [|x names IH] using rev_ind; intros i Hi Hlast.
  - discriminate.
  - rewrite make_dict_lookup_snoc.
    destruct (decide (i = length names)) as [-> | Hne].
    + rewrite lookup_app_r, Nat.sub_diag in Hi by lia. injection Hi as ->.
      now rewrite decide_True.
    + assert (Hlt : (i < length names)%nat).
      { apply lookup_lt_Some in Hi. rewrite length_app in Hi. simpl in Hi. lia. }
      rewrite lookup_app_l in Hi by exact Hlt.
      destruct (decide (x = name)) as [-> | Hx].
      * exfalso. apply (Hlast (length names) Hlt).
        rewrite lookup_app_r, Nat.sub_diag by lia. reflexivity.
      * apply IH; [exact Hi |]. intros j Hj Hjn. apply (Hlast j Hj).
        rewrite lookup_app_l; [exact Hjn |]. now apply lookup_lt_Some in Hjn.
Qed.

(** X4: the index [dict[name]] that [executeCB] uses for a joint name is
    the position of the last occurrence of the name in the goal's
    [joint_names], and 0 when the goal does not list the name. *)
Theorem dict_at_make_dict (names : list string) (name : string) :
  (forall i,
     names !! i = Some name ->
     (forall j, (i < j)%nat -> names !! j <> Some name) ->
     dict_at (make_dict names) name = i) /\
  (name ∉ names -> dict_at (make_dict names) name = 0%nat).
Proof.
  split.
  - intros i Hi Hlast. unfold dict_at.
    now rewrite (make_dict_lookup_last names name i Hi Hlast).
  - intros Hnot. unfold dict_at. now rewrite make_dict_lookup_None.
Qed.

(** ** A position goal with the joints in any order *)

Lemma dict_at_NoDup (names : list string) (name : string) (j : nat) :
  NoDup names -> names !! j = Some name -> dict_at (make_dict names) name = j.
Proof.
  intros Hnd Hj. unfold dict_at.
  rewrite (make_dict_lookup_last names name j Hj); [reflexivity |].
  intros j' Hlt Hj'.
  pose proof (NoDup_lookup names j j' name Hnd Hj Hj'). lia.
Qed.

(** The goal gives joint [name] the position [x]. *)
Definition goal_position (names : list string) (positions : list double)
    (name : string) (x : double) : Prop :=
  exists j, names !! j = Some name /\ positions !! j = Some x.

(** X5: the goal may list the joints in any order.  When its
    [joint_names] are distinct and its first point gives each of the seven
    joints of the hand a position, [executeCB] stores, for each axis, the
    position of the joint of that axis converted to degrees, whatever else
    the goal lists. *)
Theorem install_target_any_order (goal : Goal) (positions : list double)
    (rest : list (list double)) (xs : list double) (w : World) :
  DOF_ (node w) = 7%nat ->
  points goal = positions :: rest ->
  NoDup (joint_names goal) ->
  Forall2 (goal_position (joint_names goal) positions) axis_joint_names xs ->
  install_target goal w =
  Done tt {| node := with_targetAngles_ (to_degrees <$> xs) (node w);
             log := log w |}.
Proof.
  intros Hdof Hpoints Hnd Hxs.
  unfold axis_joint_names in Hxs.
  repeat match goal with
         | H : Forall2 _ (_ :: _) ?l |- _ =>
             apply Forall2_cons_inv_l in H as (? & ? & (? & ? & ?) & H & ->)
         | H : Forall2 _ [] ?l |- _ => apply Forall2_nil_inv_l in H; subst l
         end.
  unfold install_target.
  unfold bind at 1, get at 1. rewrite Hdof. unfold bind at 1, get at 1.
  rewrite Hpoints.
  change (at_ (positions :: rest) 0) with (@ret (list double) positions).
  unfold bind at 1, ret at 1.
  repeat match goal with
         | H : joint_names goal !! ?j = Some ?n |- _ =>
             rewrite (dict_at_NoDup _ n j Hnd H); clear H
         end.
  assert (Hlen : length (resize_ 0%Q 7 (targetAngles_ (node w))) = 7%nat).
  { unfold resize_. rewrite length_app, length_take, length_replicate. lia. }
  destruct (resize_ 0%Q 7 (targetAngles_ (node w)))
    as [|t0 [|t1 [|t2 [|t3 [|t4 [|t5 [|t6 [|]]]]]]]]; try discriminate.
  unfold bind, at_, store, ret, modify.
  repeat match goal with
         | H : positions !! _ = Some _ |- _ => rewrite H; clear H
         end.
  reflexivity.
Qed.

Lemma at_Done {A} (v : list A) (i : nat) (w w' : World) (x : A) :
  at_ v i w = Done x w' -> v !! i = Some x /\ w' = w.
Proof.
  unfold at_. destruct (v !! i); [intros [= <- <-]; auto | discriminate].
Qed.

Lemma store_Done {A} (v v' : list A) (i : nat) (x : A) (w w' : World) :
  store v i x w = Done v' w' ->
  (i < length v)%nat /\ v' = <[i:=x]> v /\ w' = w.
Proof.
  unfold store. destruct (i <? length v)%nat eqn:Hlt; [| discriminate].
  apply Nat.ltb_lt in Hlt. intros [= <- <-]. auto.
Qed.

(** What [install_target] has stored when it returns: for each axis the
    position the dictionary selects for the joint of the axis, in
    degrees. *)
Lemma install_target_Done (goal : Goal) (positions : list double)
    (rest : list (list double)) (w w' : World) :
  points goal = positions :: rest ->
  install_target goal w = Done tt w' ->
  forall k name,
    axis_joint_names !! k = Some name ->
    exists x,
      positions !! dict_at (make_dict (joint_names goal)) name = Some x /\
      targetAngles_ (node w') !! k = Some (to_degrees x).
Proof.
  intros Hpoints Hrun. unfold install_target in Hrun.
  unfold bind at 1, get at 1 in Hrun. unfold bind at 1, get at 1 in Hrun.
  rewrite Hpoints in Hrun.
  change (at_ (positions :: rest) 0) with (@ret (list double) positions) in Hrun.
  unfold bind at 1, ret at 1 in Hrun.
  repeat (apply bind_Done in Hrun as (? & ? & ? & Hrun); cbv beta in Hrun).
  repeat match goal with
         | H : at_ _ _ _ = Done _ _ |- _ => apply at_Done in H as [? ->]
         | H : store _ _ _ _ = Done _ _ |- _ => apply store_Done in H as (? & -> & ->)
         end.
  injection Hrun as <-. simpl.
  rewrite ?length_insert in *.
  intros k name Hk.
  destruct k as [|[|[|[|[|[|[|k]]]]]]]; simpl in Hk; try discriminate;
    injection Hk as <-; eexists; (split; [eassumption |]);
    repeat first [ rewrite list_lookup_insert_eq by (rewrite ?length_insert; lia);
                   reflexivity
                 | rewrite list_lookup_insert_ne by lia ].
Qed.

(** X6: a goal that does not name one of the joints of the hand is not
    refused for it: when [executeCB] has stored the target, the axis of a
    joint that the goal's [joint_names] do not list holds the first
    position of the point, in degrees. *)
Theorem install_target_missing_joint (goal : Goal) (positions : list double)
    (rest : list (list double)) (w w' : World) (k : nat) (name : string) :
  points goal = positions :: rest ->
  install_target goal w = Done tt w' ->
  axis_joint_names !! k = Some name ->
  name ∉ joint_names goal ->
  exists x,
    positions !! 0%nat = Some x /\
    targetAngles_ (node w') !! k = Some (to_degrees x).
Proof.
  intros Hpoints Hrun Hk Hmissing.
  destruct (install_target_Done goal positions rest w w' Hpoints Hrun k name Hk)
    as (x & Hx & Htarget).
  unfold dict_at in Hx. rewrite make_dict_lookup_None in Hx by exact Hmissing.
  exists x. split; [exact Hx | exact Htarget].
Qed.

(** ** The service [init] *)


Ltac split_replies :=
  repeat (match goal with
          | |- context [match sdh_command ?d ?l ?c with _ => _ end] =>
              destruct (sdh_command d l c)
          | |- context [match sdh_doubles ?d ?l ?c with _ => _ end] =>
              destruct (sdh_doubles d l c)
          end; simpl).



(** X8: a failed [init] can leave the node marked initialized.  With
    device type "RS232", "PCAN" or "TCP", when the open call returns and
    [GetAxisMaxVelocity] throws, [srvCallback_Init] answers
    [success = false] with the text of the exception, but [isInitialized_]
    is already true and [max_velocities_] is not set; a second call then
    answers "sdh already initialized" without any call into the device. *)
Theorem srvCallback_Init_fails_after_open (w : World) (what : string) :
  isInitialized_ (node w) = false ->
  sdhdevicetype_ (node w) = "RS232" \/
  sdhdevicetype_ (node w) = "PCAN" \/
  sdhdevicetype_ (node w) = "TCP" ->
  (forall c, sdh_command sdh_ (calls_of (log w)) c = Returns tt) ->
  (forall past, sdh_doubles sdh_ past GetAxisMaxVelocity = Throws what) ->
  exists w',
    srvCallback_Init w = Done {| success := false; message := what |} w' /\
    isInitialized_ (node w') = true /\
    max_velocities_ (node w') = max_velocities_ (node w) /\
    srvCallback_Init w' =
      Done {| success := true; message := "sdh already initialized" |}
           {| node := node w';
              log := log w' ++ [RosWarn "...sdh already initialized..."] |}.
Proof.
  intros Hinit Htype Hopen Hmax.
  unfold srvCallback_Init at 1. unfold_prims. rewrite Hinit. simpl.
  destruct Htype as [-> | [-> | ->]]; simpl; rewrite Hopen; simpl;
    rewrite Hmax; simpl;
    (eexists; split; [reflexivity |]); simpl;
    (split; [reflexivity |]); (split; [reflexivity |]);
    unfold srvCallback_Init; unfold_prims; reflexivity.
Qed.

(** ** The services that stop and disconnect the hand *)

(** Whether a call into the device came back. *)
Definition returned {A} (r : Reply A) : bool :=
  match r with
  | Returns _ => true
  | Throws _ => false
  end.

Ltac next_reply :=
  rewrite ?calls_of_app; simpl; rewrite <- ?app_assoc; simpl;
  match goal with
  | |- context [match sdh_command ?d ?l ?c with _ => _ end] =>
      destruct (sdh_command d l c) as [[]|?]
  end; simpl.

Ltac solve_answer :=
  eexists; eexists; (split; [rewrite <- ?app_assoc; reflexivity |]); simpl;
  repeat split; intros; simpl in *;
  repeat match goal with
         | H : _ \/ _ |- _ => destruct H
         | H : _ /\ _ |- _ => destruct H
         | H : In _ _ |- _ => simpl in H
         | H : False |- _ => destruct H
         end;
  try discriminate; try congruence; auto.

(** X9: [srvCallback_EmergencyStop] always returns, and [isInitialized_]
    is false afterwards while the other members are untouched.  It calls
    [EmergencyStop], then [SetAxisEnable(0)] if that returned, then
    [SetAxisMotorCurrent(0)] if that returned too, and nothing else.  It
    answers success, with "EMERGENCY stop", exactly when the device
    returned from all three; when the device throws on one of them the
    answer is a failure whose message is the text of that exception, which
    is also the last line logged. *)
Theorem srvCallback_EmergencyStop_returns (w : World) :
  let past := calls_of (log w) in
  let stop := sdh_command sdh_ past EmergencyStop in
  let disable := sdh_command sdh_ (past ++ [EmergencyStop]) (SetAxisEnable 0%Q) in
  let current :=
    sdh_command sdh_ (past ++ [EmergencyStop; SetAxisEnable 0%Q])
      (SetAxisMotorCurrent 0%Q) in
  exists res new,
    srvCallback_EmergencyStop w =
      Done res {| node := with_isInitialized_ false (node w);
                  log := log w ++ new |} /\
    calls_of new =
      EmergencyStop ::
      (if returned stop then
         SetAxisEnable 0%Q ::
         (if returned disable then [SetAxisMotorCurrent 0%Q] else [])
       else []) /\
    (success res = true <->
     returned stop && returned disable && returned current = true) /\
    (success res = true -> message res = "EMERGENCY stop") /\
    (forall what,
       stop = Throws what \/
       (returned stop = true /\ disable = Throws what) \/
       (returned stop = true /\ returned disable = true /\
        current = Throws what) ->
       res = {| success := false; message := what |} /\
       last new = Some (RosError ("An exception was caught: " +:+ what))).
Proof.
  intros past stop disable current. subst past stop disable current.
  unfold srvCallback_EmergencyStop. unfold_prims; unfold_prims.
  next_reply; [next_reply; [next_reply |] |]; solve_answer.
Qed.

(** X10: [srvCallback_Disconnect] always returns, with [isInitialized_]
    false afterwards and the other members untouched.  It calls
    [SetAxisEnable(0)], then [SetAxisMotorCurrent(0)] if that returned,
    then [Close] if that returned too, and nothing else: when the device
    throws on one of the first two the connection is not closed, although
    the node is marked uninitialized.  It answers success, with
    "disconnected from SDH", exactly when the device returned from all
    three; otherwise the answer is a failure whose message is the text of
    the exception, which is also the last line logged. *)
Theorem srvCallback_Disconnect_returns (w : World) :
  let past := calls_of (log w) in
  let disable := sdh_command sdh_ past (SetAxisEnable 0%Q) in
  let current :=
    sdh_command sdh_ (past ++ [SetAxisEnable 0%Q]) (SetAxisMotorCurrent 0%Q) in
  let close :=
    sdh_command sdh_ (past ++ [SetAxisEnable 0%Q; SetAxisMotorCurrent 0%Q])
      Close in
  exists res new,
    srvCallback_Disconnect w =
      Done res {| node := with_isInitialized_ false (node w);
                  log := log w ++ new |} /\
    calls_of new =
      SetAxisEnable 0%Q ::
      (if returned disable then
         SetAxisMotorCurrent 0%Q :: (if returned current then [Close] else [])
       else []) /\
    (In Close (calls_of new) <->
     returned disable && returned current = true) /\
    (success res = true <->
     returned disable && returned current && returned close = true) /\
    (success res = true -> message res = "disconnected from SDH") /\
    (forall what,
       disable = Throws what \/
       (returned disable = true /\ current = Throws what) \/
       (returned disable = true /\ returned current = true /\
        close = Throws what) ->
       res = {| success := false; message := what |} /\
       last new = Some (RosError ("An exception was caught: " +:+ what))).
Proof.
  intros past disable current close. subst past disable current close.
  unfold srvCallback_Disconnect. unfold_prims; unfold_prims.
  next_reply; [next_reply; [next_reply |] |]; solve_answer.
Qed.

(** X11: [srvCallback_MotorPowerOn] and [srvCallback_MotorPowerOff]
    always return and change no member; they do not test
    [isInitialized_].  Power on calls [SetAxisEnable(1)] and then, if that
    returned, [SetAxisMotorCurrent(0.5)]; power off calls
    [SetAxisEnable(0)] and then, if that returned,
    [SetAxisMotorCurrent(0)].  The answer is a success, with "Motor ON" or
    "Motor OFF", exactly when the device returned from both calls;
    otherwise it is a failure whose message is the text of the exception,
    which is also the last line logged. *)
Theorem srvCallback_MotorPower_returns (w : World) :
  let past := calls_of (log w) in
  let power (enable current : double) (callback : M Response) (ok : string) :=
    let first := sdh_command sdh_ past (SetAxisEnable enable) in
    let second :=
      sdh_command sdh_ (past ++ [SetAxisEnable enable])
        (SetAxisMotorCurrent current) in
    exists res new,
      callback w = Done res {| node := node w; log := log w ++ new |} /\
      calls_of new =
        SetAxisEnable enable ::
        (if returned first then [SetAxisMotorCurrent current] else []) /\
      (success res = true <-> returned first && returned second = true) /\
      (success res = true -> message res = ok) /\
      (forall what,
         first = Throws what \/
         (returned first = true /\ second = Throws what) ->
         res = {| success := false; message := what |} /\
         last new = Some (RosError ("An exception was caught: " +:+ what))) in
  power 1%Q 0.5%Q srvCallback_MotorPowerOn "Motor ON" /\
  power 0%Q 0%Q srvCallback_MotorPowerOff "Motor OFF".
Proof.
  intros past power. subst past power. cbv beta zeta. split.
  - unfold srvCallback_MotorPowerOn. unfold_prims; unfold_prims.
    next_reply; [next_reply |]; solve_answer.
  - unfold srvCallback_MotorPowerOff. unfold_prims; unfold_prims.
    next_reply; [next_reply |]; solve_answer.
Qed.

(** ** The node that is not initialized *)

(** What the node does while [isInitialized_] is false: a tick publishes
    the diagnostics message alone, a goal and a velocity command are
    rejected with one error line, the destructor does nothing; none of them
    calls the device or changes a member. *)
Definition leaves_device_alone (w : World) : Prop :=
  (exists level name text,
     updateSdh w =
       Done tt {| node := node w;
                  log := log w ++ [PubDiagnostics level name text] |} /\
     level <> 0) /\
  (forall goal sched, exists text,
     executeCB goal sched w =
       Done tt {| node := node w;
                  log := log w ++ [RosError text; SetAborted] |}) /\
  (forall data, exists text,
     topicCallback_setVelocitiesRaw data w =
       Done tt {| node := node w; log := log w ++ [RosError text] |}) /\
  destructor w = Done tt w.

Lemma uninitialized_leaves_device_alone (w : World) :
  isInitialized_ (node w) = false -> leaves_device_alone w.
Proof.
  intros Hinit. destruct w as [n l]. simpl in Hinit.
  repeat split.
  - unfold updateSdh, publish_diagnostics. unfold_prims. simpl.
    rewrite Hinit. simpl.
    destruct (isError_ n); rewrite ?Hinit; simpl;
      do 3 eexists; (split; [reflexivity | discriminate]).
  - intros goal sched. unfold executeCB. unfold_prims. simpl. rewrite Hinit.
    destruct (String.eqb (operationMode_ n) "position"); simpl;
      eexists; rewrite <- ?app_assoc; reflexivity.
  - intros data. unfold topicCallback_setVelocitiesRaw. unfold_prims. simpl.
    rewrite Hinit. simpl. eexists; reflexivity.
  - unfold destructor. unfold_prims. simpl. rewrite Hinit. reflexivity.
Qed.

Lemma stopped_uninitialized (w : World) :
  isInitialized_ (node (world_of (srvCallback_EmergencyStop w))) = false /\
  isInitialized_ (node (world_of (srvCallback_Disconnect w))) = false.
Proof.
  split.
  - unfold srvCallback_EmergencyStop. unfold_prims; unfold_prims; simpl.
    split_replies; reflexivity.
  - unfold srvCallback_Disconnect. unfold_prims; unfold_prims; simpl.
    split_replies; reflexivity.
Qed.

(** X12: after [srvCallback_EmergencyStop] and after
    [srvCallback_Disconnect], whether they succeeded or failed, the node
    leaves the device alone until it is initialized again: a tick makes no
    device call and publishes only a diagnostics message of a level other
    than 0, every goal is aborted and every velocity command rejected, and
    the destructor does not call [Close]. *)
Theorem stopped_node_leaves_device_alone (w : World) :
  leaves_device_alone (world_of (srvCallback_EmergencyStop w)) /\
  leaves_device_alone (world_of (srvCallback_Disconnect w)).
Proof.
  split; apply uninitialized_leaves_device_alone; apply stopped_uninitialized.
Qed.

(** ** What a tick publishes *)

Definition is_publication (e : Event) : bool :=
  match e with
  | PubJointState _ _ _ _ | PubControllerState _ _ _ _ _ _ _
  | PubTemperature _ _ | PubDiagnostics _ _ _ => true
  | _ => false
  end.

Definition publications (l : list Event) : list Event :=
  List.filter is_publication l.

Definition not_publication (e : Event) : Prop := is_publication e = false.

(** The members that the dispatch of a goal leaves as they are. *)
Definition same_setup (n0 n : SdhNode) : Prop :=
  DOF_ n = DOF_ n0 /\ joint_names_ n = joint_names_ n0 /\
  axes_ n = axes_ n0 /\ targetAngles_ n = targetAngles_ n0.

Lemma same_setup_refl n : same_setup n n.
Proof. repeat split. Qed.

Lemma dispatch_goal_quiet (n0 : SdhNode) (w : World) :
  same_setup n0 (node w) ->
  keeps (same_setup n0) not_publication w (dispatch_goal w).
Proof.
  intros Hw. unfold dispatch_goal, clampVelocities, for_.
  repeat first
    [ keeps_step
    | apply keeps_for_each; [intros ? ? ? |] ];
    first [assumption | reflexivity].
Qed.

Lemma publications_quiet (new : list Event) :
  Forall not_publication new -> publications new = [].
Proof.
  induction 1 as [|e new He _ IH]; [reflexivity |].
  unfold publications in *. simpl. now rewrite He.
Qed.

Lemma publications_app (l1 l2 : list Event) :
  publications (l1 ++ l2) = publications l1 ++ publications l2.
Proof. apply List.filter_app. Qed.

(** The loop that fills the error field: where it has passed, the field
    holds the difference of the two vectors. *)
Lemma error_loop_Done (idx : list nat) (desired actual : list double) :
  forall (error r : list double) (w w' : World),
    error_loop idx desired actual error w = Done r w' ->
    w' = w /\ length r = length error /\
    (forall i, In i idx ->
       exists d a, desired !! i = Some d /\ actual !! i = Some a /\
                   r !! i = Some (dsub d a)) /\
    (forall i, ~ In i idx -> r !! i = error !! i).
Proof.
  induction idx as [|i0 idx IH]; intros error r w w' Hrun; simpl in Hrun.
  - injection Hrun as <- <-. repeat split. intros i [].
  - apply bind_Done in Hrun as (d & w1 & Hd & Hrun).
    apply at_Done in Hd as [Hd ->].
    apply bind_Done in Hrun as (a & w1 & Ha & Hrun).
    apply at_Done in Ha as [Ha ->].
    apply bind_Done in Hrun as (e1 & w1 & He & Hrun).
    apply store_Done in He as (Hlt & -> & ->).
    apply IH in Hrun as (-> & Hlen & Hin & Hout).
    rewrite length_insert in Hlen.
    split; [reflexivity |]. split; [exact Hlen |]. split.
    + intros i Hi. destruct (in_dec Nat.eq_dec i idx) as [Hi' | Hi'].
      * now apply Hin.
      * destruct Hi as [<- | Hi]; [| contradiction].
        exists d, a. repeat split; try assumption.
        rewrite (Hout _ Hi'). now apply list_lookup_insert_eq.
    + intros i Hi. rewrite Hout by (intros H; apply Hi; now right).
      apply list_lookup_insert_ne. intros ->. apply Hi. now left.
Qed.

(** The seven assignments need a field of seven entries at least, and
    leave its size as it is. *)
Lemma axes_to_joints_Done (a field r : list double) (w w' : World) :
  axes_to_joints a field w = Done r w' ->
  w' = w /\ length r = length field /\ (7 <= length field)%nat.
Proof.
  intros Hrun. unfold axes_to_joints in Hrun.
  repeat (apply bind_Done in Hrun as (? & ? & Hat & Hrun);
          apply at_Done in Hat as [_ ->];
          apply bind_Done in Hrun as (? & ? & Hst & Hrun);
          apply store_Done in Hst as (? & -> & ->)).
  injection Hrun as <- <-.
  rewrite !length_insert in *. repeat split; lia.
Qed.

Lemma length_zeros (n : nat) : length (resize_ 0%Q n []) = n.
Proof.
  unfold resize_. rewrite length_app, length_take, length_replicate. simpl. lia.
Qed.

Lemma lookup_zeros (n i : nat) (x : double) :
  resize_ 0%Q n [] !! i = Some x -> x = 0%Q.
Proof.
  unfold resize_. rewrite take_nil. simpl. intros H.
  apply lookup_replicate in H. tauto.
Qed.

Lemma emit_Done (e : Event) (u : unit) (w w' : World) :
  emit e w = Done u w' -> node w' = node w /\ log w' = log w ++ [e].
Proof. unfold emit. intros H. inversion H. split; reflexivity. Qed.

Lemma modify_Done (f : SdhNode -> SdhNode) (u : unit) (w w' : World) :
  modify f w = Done u w' -> node w' = f (node w) /\ log w' = log w.
Proof. unfold modify. intros H. inversion H. split; reflexivity. Qed.

Lemma invoke_Done_log {A}
    (reply : cSDH -> list DevCall -> DevCall -> Reply A) c w a w' :
  invoke reply c w = Done a w' ->
  node w' = node w /\ log w' = log w ++ [Call c (hasNewGoal_ (node w))].
Proof.
  unfold invoke. destruct (reply _ _ _); intros [= <- <-]. split; reflexivity.
Qed.

(** A device read of [updateSdh] inside [try]: it adds no publication. *)
Lemma guarded_read_Done (c : DevCall) (w w' : World) (r : list double) :
  try_catch (read_doubles c) (fun what => log_exception what ;; ret []) w =
    Done r w' ->
  node w' = node w /\
  exists new, log w' = log w ++ new /\ publications new = [].
Proof.
  unfold try_catch, read_doubles, invoke, log_exception, ROS_ERROR, emit, bind, ret.
  destruct (sdh_doubles _ _ _); intros [= <- <-]; simpl;
    (split; [reflexivity |]).
  - eexists. split; reflexivity.
  - eexists. rewrite <- app_assoc. split; reflexivity.
Qed.

(** The messages of one tick of the initialized node, in the order in
    which they are published. *)
Definition tick_messages (n : SdhNode) (msgs : list Event) : Prop :=
  exists position velocity desired error_p error_v p0 v0 names temps
         level name text,
    let zeros := resize_ 0%Q (DOF_ n) [] in
    msgs = [PubJointState (joint_names_ n) position velocity zeros;
            PubJointState ["schunk_right_finger_21_joint"] [p0] [v0] [];
            PubControllerState (joint_names_ n) desired zeros
              position velocity error_p error_v;
            PubTemperature names temps;
            PubDiagnostics level name text] /\
    length position = DOF_ n /\ length velocity = DOF_ n /\
    length desired = DOF_ n /\
    length error_p = DOF_ n /\ length error_v = DOF_ n /\
    position !! 0%nat = Some p0 /\ velocity !! 0%nat = Some v0 /\
    (forall i d a, desired !! i = Some d -> position !! i = Some a ->
                   error_p !! i = Some (dsub d a)) /\
    (forall i a, velocity !! i = Some a -> error_v !! i = Some (dsub 0%Q a)) /\
    (targetAngles_ n = [] -> desired = zeros) /\
    length names = length temps.

Ltac invert_step :=
  match goal with
  | H : bind _ _ _ = Done _ _ |- _ =>
      apply bind_Done in H as (? & ? & ? & ?)
  | H : get _ _ = Done _ _ |- _ => unfold get in H; injection H as <- <-
  | H : ret _ _ = Done _ _ |- _ => unfold ret in H; injection H as <- <-
  | H : try_catch (read_doubles _) _ _ = Done _ _ |- _ =>
      apply guarded_read_Done in H as (? & ? & ? & ?)
  | H : axes_to_joints _ _ _ = Done _ _ |- _ =>
      apply axes_to_joints_Done in H as (-> & ? & ?)
  | H : error_loop _ _ _ _ _ = Done _ _ |- _ =>
      apply error_loop_Done in H as (-> & ? & ? & _)
  | H : at_ _ _ _ = Done _ _ |- _ => apply at_Done in H as (? & ->)
  | H : emit _ _ = Done _ _ |- _ => apply emit_Done in H as (? & ?)
  | H : ROS_ERROR _ _ = Done _ _ |- _ => apply emit_Done in H as (? & ?)
  | H : modify _ _ = Done _ _ |- _ => apply modify_Done in H as (? & ?)
  | H : read_states _ _ = Done _ _ |- _ =>
      apply invoke_Done_log in H as (? & ?)
  | H : read_doubles _ _ = Done _ _ |- _ =>
      apply invoke_Done_log in H as (? & ?)
  end.

(** How the reading half of a tick returns: the device gave an answer to
    each of the four reads, [DOF_] is 7 at least, only [state_] has
    changed, and four messages have been published. *)
Lemma read_and_publish_Done (w w' : World) :
  read_and_publish w = Done tt w' ->
  (7 <= DOF_ (node w))%nat /\
  (exists st, node w' = with_state_ st (node w)) /\
  exists new,
    log w' = log w ++ new /\
    forall level name text,
      tick_messages (node w) (publications new ++ [PubDiagnostics level name text]).
Proof.
  intros Hrun. unfold read_and_publish in Hrun.
  repeat invert_step.
  rewrite length_zeros in *.
  assert (Hdesired :
            length x23 = DOF_ (node w) /\
            (targetAngles_ (node w) = [] -> x23 = resize_ 0%Q (DOF_ (node w)) []) /\
            x24 = x20).
  { replace (node x20) with (node w) in * by congruence.
    destruct (targetAngles_ (node w)) as [|t target]; simpl in *.
    - invert_step. auto using length_zeros.
    - invert_step. rewrite length_zeros in *. repeat split; [lia | discriminate]. }
  destruct Hdesired as (Hlen & Hnone & ->).
  assert (Htemp :
            exists names temps,
              length names = length temps /\
              node w' = node x36 /\
              exists new, log w' = log x36 ++ new /\
                          publications new = [PubTemperature names temps]).
  { destruct (length x35 =? length temperature_names_)%nat eqn:Hsize.
    - apply Nat.eqb_eq in Hsize. invert_step.
      exists temperature_names_, x35. repeat split; try congruence.
      eexists. split; [eassumption | reflexivity].
    - repeat invert_step. exists [], []. repeat split; try congruence.
      eexists. split.
      { match goal with
        | H1 : log w' = log ?v ++ _, H2 : log ?v = log x36 ++ _ |- _ =>
            rewrite H1, H2
        end.
        rewrite <- app_assoc. reflexivity. }
      reflexivity. }
  destruct Htemp as (names & temps & Hsize & Hnode & last & Hlast & Hpub).
  clear H18 H11.
  split; [lia |]. split.
  - exists x31. congruence.
  - eexists. split.
    + rewrite Hlast, H28, H26, H27, H23, H24, H25, H0, H3.
      rewrite <- !app_assoc. reflexivity.
    + intros level name text.
      rewrite !publications_app, H10, H1, Hpub. simpl.
      unfold tick_messages.
      exists x9, x11, x23, x25, x27, x15, x17, names, temps, level, name, text.
      simpl. split; [reflexivity |].
      repeat split; try assumption.
      * intros i d a Hd Ha.
        destruct (H22 i) as (d' & a' & Hd' & Ha' & Hr).
        { apply in_seq. apply lookup_lt_Some in Hd. lia. }
        congruence.
      * intros i a Ha.
        destruct (H21 i) as (d' & a' & Hd' & Ha' & Hr).
        { apply in_seq. apply lookup_lt_Some in Ha. lia. }
        apply lookup_zeros in Hd'. congruence.
Qed.

Lemma tick_messages_setup (n0 n : SdhNode) (msgs : list Event) :
  same_setup n0 n -> tick_messages n msgs -> tick_messages n0 msgs.
Proof.
  intros (Hdof & Hnames & _ & Htarget). unfold tick_messages.
  now rewrite Hdof, Hnames, Htarget.
Qed.

Lemma publish_diagnostics_Done (w w' : World) :
  publish_diagnostics w = Done tt w' ->
  exists level name text,
    log w' = log w ++ [PubDiagnostics level name text].
Proof.
  unfold publish_diagnostics. unfold_prims.
  destruct (isError_ (node w)); [| destruct (isInitialized_ (node w))];
    intros [= <-]; do 3 eexists; reflexivity.
Qed.

(** X13: a tick of the initialized node that returns has published, in
    this order, the joint states, the state of the coupled joint
    [schunk_right_finger_21_joint], the controller state, the temperatures
    and the diagnostics, and nothing else.  Every vector of the joint and
    controller states has [DOF_] entries, and [DOF_] is 7 at least (with
    fewer joints the fixed indices 0..6 are out of range and the tick does
    not return).  The coupled joint repeats entry 0 of the joint states;
    the controller error is desired minus actual for the positions, and
    minus the actual velocity for the velocities; the desired positions are
    all zero as long as [targetAngles_] is empty, that is until the first
    goal is accepted; and the temperature message has as many names as
    values. *)
Theorem updateSdh_publishes (w w' : World) :
  isInitialized_ (node w) = true ->
  updateSdh w = Done tt w' ->
  (7 <= DOF_ (node w))%nat /\
  exists new,
    log w' = log w ++ new /\ tick_messages (node w) (publications new).
Proof.
  intros Hinit Hrun. unfold updateSdh in Hrun.
  apply bind_Done in Hrun as (b & w0 & Hget & Hrun). injection Hget as <- <-.
  rewrite Hinit in Hrun.
  apply bind_Done in Hrun as (u & w2 & Hbody & Hdiag).
  apply bind_Done in Hbody as (u1 & w1 & Hgoal & Hread).
  destruct u, u1.
  destruct (dispatch_goal_quiet (node w) w (same_setup_refl _))
    as [Hsetup (new1 & Hlog1 & Hquiet)].
  rewrite Hgoal in Hsetup, Hlog1. simpl in Hsetup, Hlog1.
  apply publications_quiet in Hquiet.
  apply read_and_publish_Done in Hread as (Hdof & _ & new2 & Hlog2 & Hmsgs).
  apply publish_diagnostics_Done in Hdiag as (level & name & text & Hlog3).
  split; [destruct Hsetup as [<- _]; exact Hdof |].
  exists (new1 ++ new2 ++ [PubDiagnostics level name text]). split.
  - rewrite Hlog3, Hlog2, Hlog1. now rewrite <- !app_assoc.
  - rewrite publications_app, Hquiet. simpl. rewrite publications_app.
    apply (tick_messages_setup _ _ _ Hsetup). apply Hmsgs.
Qed.

(** ** The members that are set once *)




(** ** The result of a goal *)

Definition not_result (e : Event) : Prop :=
  e <> SetAborted /\ e <> SetSucceeded.

(** The log from [w] to [w'] ends in the one result it holds. *)
Definition one_result (w w' : World) : Prop :=
  exists new result,
    log w' = log w ++ new ++ [result] /\
    (result = SetAborted \/ result = SetSucceeded) /\
    Forall not_result new.

Lemma one_result_after (w w1 w' : World) :
  extends not_result w w1 -> one_result w1 w' -> one_result w w'.
Proof.
  intros (new1 & Hlog1 & Hnew1) (new & result & Hlog & Hresult & Hnew).
  exists (new1 ++ new), result. split; [| split; [exact Hresult |]].
  - rewrite Hlog, Hlog1. now rewrite <- !app_assoc.
  - apply Forall_app. now split.
Qed.

Ltac solve_no_result :=
  first [exact Logic.I | split; discriminate].

(** Nothing the main thread runs sets the result of a goal. *)
Lemma run_main_no_result (op : MainOp) (w : World) :
  keeps (fun _ => True) not_result w (run_main op w).
Proof.
  destruct op; simpl;
    unfold updateSdh, dispatch_goal, read_and_publish, publish_diagnostics,
      srvCallback_Init, srvCallback_Stop, srvCallback_SetOperationMode,
      srvCallback_EmergencyStop, srvCallback_Disconnect,
      srvCallback_MotorPowerOn, srvCallback_MotorPowerOff,
      switchOperationMode, topicCallback_setVelocitiesRaw,
      clampVelocities, for_;
    repeat first [ keeps_step | apply keeps_for_each; [intros ? ? ? |] ];
    solve_no_result.
Qed.

Lemma usleep_no_result (s : Slice) (w : World) :
  keeps (fun _ => True) not_result w (usleep s w).
Proof.
  unfold usleep. apply keeps_for_each; [| exact Logic.I].
  intros op w' _. apply run_main_no_result.
Qed.

Lemma keeps_Done {A} I E (w w' : World) (m : M A) (a : A) :
  keeps I E w (m w) -> m w = Done a w' -> extends E w w'.
Proof. intros [_ H] Hrun. now rewrite Hrun in H. Qed.

Lemma wait_for_slot_no_result (sched : list Slice) (w : World) :
  keeps (fun _ => True) not_result w (wait_for_slot sched w).
Proof.
  revert w. induction sched as [|s sched IH]; intros w; simpl;
    repeat keeps_step;
    first [solve_no_result | apply usleep_no_result | apply IH].
Qed.

Lemma install_target_no_result (goal : Goal) (w : World) :
  keeps (fun _ => True) not_result w (install_target goal w).
Proof. unfold install_target. repeat keeps_step; solve_no_result. Qed.

Lemma wait_for_idle_one_result (sched : list Slice) :
  forall (available : bool) (w w' : World),
    wait_for_idle available sched w = Done tt w' -> one_result w w'.
Proof.
  induction sched as [|s sched IH]; intros available w w' Hrun;
    simpl in Hrun; destruct available.
  - unfold_prims. injection Hrun as <-.
    exists [RosWarn (action_name_ (node w) +:+ ": Aborted")], SetAborted.
    simpl. rewrite <- app_assoc.
    repeat split; auto; repeat constructor; discriminate.
  - discriminate.
  - unfold_prims. injection Hrun as <-.
    exists [RosWarn (action_name_ (node w) +:+ ": Aborted")], SetAborted.
    simpl. rewrite <- app_assoc.
    repeat split; auto; repeat constructor; discriminate.
  - apply bind_Done in Hrun as (st & w0 & Hget & Hrun).
    injection Hget as <- <-.
    apply bind_Done in Hrun as (u & w1 & Hsleep & Hrun).
    apply (one_result_after w w1);
      [exact (keeps_Done _ _ _ _ _ _ (usleep_no_result s w) Hsleep) |].
    destruct (scan_states (state_ (node w)) false).
    + injection Hrun as <-. exists [], SetSucceeded.
      repeat split; auto.
    + exact (IH _ _ _ Hrun).
Qed.

(** X15: when [executeCB] returns it has set the result of the goal
    exactly once, as the last thing it did: [setAborted] or
    [setSucceeded], and nothing that ran in between (ticks and callbacks
    of the main thread during the sleeps) sets a result. *)
Theorem executeCB_one_result (goal : Goal) (sched : list Slice) (w w' : World) :
  executeCB goal sched w = Done tt w' -> one_result w w'.
Proof.
  intros Hrun. unfold executeCB in Hrun.
  do 4 (apply bind_Done in Hrun as (? & ? & Hget & Hrun);
        injection Hget as <- <-).
  assert (Hreject : forall text,
            (ROS_ERROR text ;; emit SetAborted)%sdh w = Done tt w' ->
            one_result w w').
  { intros text H. unfold_prims. injection H as <-.
    exists [RosError text], SetAborted. simpl. rewrite <- app_assoc.
    repeat split; auto; repeat constructor; discriminate. }
  destruct (negb _); [exact (Hreject _ Hrun) |].
  destruct (negb _); [exact (Hreject _ Hrun) |].
  destruct (malformed _ _); [exact (Hreject _ Hrun) |].
  clear Hreject.
  apply bind_Done in Hrun as (sched1 & w1 & Hslot & Hrun).
  apply (one_result_after w w1);
    [exact (keeps_Done _ _ _ _ _ _ (wait_for_slot_no_result sched w) Hslot) |].
  apply bind_Done in Hrun as (u & w2 & Hinstall & Hrun).
  apply (one_result_after w1 w2);
    [exact (keeps_Done _ _ _ _ _ _ (install_target_no_result goal w1) Hinstall) |].
  apply bind_Done in Hrun as (u' & w3 & Hflag & Hrun).
  apply modify_Done in Hflag as [_ Hflag].
  apply (one_result_after w2 w3);
    [exists []; rewrite Hflag, app_nil_r; split; [reflexivity | constructor] |].
  destruct sched1 as [|s sched1]; [discriminate |].
  apply bind_Done in Hrun as (u'' & w4 & Hsleep & Hrun).
  apply (one_result_after w3 w4);
    [exact (keeps_Done _ _ _ _ _ _ (usleep_no_result s w3) Hsleep) |].
  exact (wait_for_idle_one_result _ _ _ _ Hrun).
Qed.
End Node.

(** * Concrete runs *)

(** The example node is what [init] builds, and the connected node is what
    [srvCallback_Init] leaves on a device that accepts every call. *)
Lemma init_example :
  init "/sdh/follow_joint_trajectory" "/sdh" example_params = Some example_node.
Proof. reflexivity. Qed.

Lemma connected_after_init (states : list Z) :
  exists w',
    srvCallback_Init (device_reporting states) (start example_node) =
      Done {| success := true; message := "" |} w' /\
    node w' = connected_node.
Proof. eexists. split; reflexivity. Qed.

(** ** The wait of [executeCB] ends while six axes still move *)

(** C1, on the device whose axes report the states 1, 1, 1, 1, 1, 1, 0:
    the goal is accepted, the tick during the first sleep dispatches it and
    reads these states, and [executeCB] then sets the goal succeeded,
    although six of the seven axes are not idle. *)
Theorem executeCB_succeeds_while_axes_move :
  exists w',
    executeCB unrounded (device_reporting [1; 1; 1; 1; 1; 1; 0])
      example_goal [one_tick; one_tick] connected = Done tt w' /\
    state_ (node w') = [1; 1; 1; 1; 1; 1; 0] /\
    last (log w') = Some SetSucceeded.
Proof. eexists. split; [vm_compute; reflexivity | split; reflexivity]. Qed.

(** With the last axis moving and the others idle the wait goes on. *)
Lemma executeCB_waits_for_last_axis :
  exists w',
    executeCB unrounded (device_reporting [0; 0; 0; 0; 0; 0; 1])
      example_goal [one_tick; one_tick] connected = Waiting w'.
Proof. eexists. vm_compute. reflexivity. Qed.

(** ** An exception of [GetAxisActualState] leaves [updateSdh] *)

(** C3, on a device whose [GetAxisActualState] throws: the exception
    leaves [updateSdh]; the tick publishes neither the temperatures nor the
    diagnostics. *)
Theorem updateSdh_state_read_escapes :
  exists w',
    updateSdh unrounded (device_failing is_GetAxisActualState) connected =
      Thrown "timeout" w' /\
    Forall (fun e => match e with
                     | PubTemperature _ _ | PubDiagnostics _ _ _ => False
                     | _ => True
                     end) (log w').
Proof.
  eexists. split; [vm_compute; reflexivity |].
  repeat constructor.
Qed.

(** An exception of [GetAxisActualAngle] is caught, but the vector of
    angles is then empty and the tick reads its element 0. *)
Lemma updateSdh_angle_read_undefined :
  exists w',
    updateSdh unrounded (device_failing is_GetAxisActualAngle) connected =
      Undefined w'.
Proof. eexists. vm_compute. reflexivity. Qed.

(** ** The service [stop] reports success when [Stop] throws *)

(** On a device whose [Stop] throws "timeout". *)
Lemma srvCallback_Stop_hides_exception_witness :
  sdh_command (device_failing is_Stop) (calls_of (log connected)) Stop =
    Throws "timeout" /\
  srvCallback_Stop (device_failing is_Stop) connected =
  Done {| success := true; message := "" |}
       {| node := connected_node;
          log := [Call Stop false;
                  RosError "An exception was caught: timeout"] |}.
Proof.
  split; [reflexivity |].
  exact (srvCallback_Stop_hides_exception (device_failing is_Stop) connected
           "timeout" eq_refl).
Defined.

(** ** The tick dispatches with the slot still full *)

(** C2 as stated fails: [executeCB] has installed the example goal and
    set [hasNewGoal_]; in the next tick the dispatch call [Stop] is made
    while [hasNewGoal_] is still true, so it is not the case that every
    dispatch call of the tick sees the slot empty. *)
Lemma updateSdh_dispatches_with_slot_full :
  let dev := device_reporting [0; 0; 0; 0; 0; 0; 0] in
  let w := world_of (executeCB unrounded dev example_goal [] connected) in
  (isInitialized_ (node w) = true /\ hasNewGoal_ (node w) = true /\ log w = []) /\
  ~ (forall c p,
       In (Call c p) (log (world_of (updateSdh unrounded dev w))) ->
       dispatch_call c = true -> p = false).
Proof.
  split; [repeat split |].
  intros H. specialize (H Stop true). vm_compute in H.
  discriminate (H (or_introl eq_refl) eq_refl).
Qed.

Lemma updateSdh_clears_after_dispatch_witness :
  let dev := device_reporting [0; 0; 0; 0; 0; 0; 0] in
  let w := world_of (executeCB unrounded dev example_goal [] connected) in
  isInitialized_ (node w) = true /\
  hasNewGoal_ (node w) = true /\
  dispatched_first w (world_of (updateSdh unrounded dev w)) /\
  ((forall w', dispatch_goal dev w <> Undefined w') ->
   hasNewGoal_ (node (world_of (updateSdh unrounded dev w))) = false).
Proof.
  split; [reflexivity |]. split; [reflexivity |].
  apply (updateSdh_clears_after_dispatch unrounded
           (device_reporting [0; 0; 0; 0; 0; 0; 0])); reflexivity.
Defined.

(** ** Instances of the theorems *)

Lemma executeCB_rejects_witness :
  (operationMode_ (node (start example_node)) <> "position" \/
   isInitialized_ (node (start example_node)) = false \/
   malformed (DOF_ (node (start example_node))) example_goal = true) /\
  exists text,
    executeCB unrounded (device_reporting [0; 0; 0; 0; 0; 0; 0])
      example_goal [one_tick] (start example_node) =
    Done tt {| node := example_node;
               log := [RosError text; SetAborted] |}.
Proof.
  assert (H : operationMode_ (node (start example_node)) <> "position" \/
              isInitialized_ (node (start example_node)) = false \/
              malformed (DOF_ (node (start example_node))) example_goal = true)
    by (right; left; reflexivity).
  split; [exact H |].
  exact (executeCB_rejects unrounded (device_reporting [0; 0; 0; 0; 0; 0; 0])
           example_goal [one_tick] (start example_node) H).
Defined.

Lemma switchOperationMode_result_witness :
  let dev := device_reporting [0; 0; 0; 0; 0; 0; 0] in
  let w' := world_of (switchOperationMode dev "velocity" connected) in
  let bad := device_failing (fun c => match c with SetController _ => true | _ => false end) in
  let w'' := world_of (switchOperationMode bad "velocity" connected) in
  (switchOperationMode dev "velocity" connected = Done true w' /\
   ("velocity" = "position" \/ "velocity" = "velocity") /\
   operationMode_ (node w') = "velocity" /\
   hasNewGoal_ (node w') = false) /\
  (switchOperationMode bad "velocity" connected = Done false w'' /\
   operationMode_ (node w'') = operationMode_ (node connected)).
Proof.
  split.
  - split; [reflexivity |].
    exact (switchOperationMode_result (device_reporting [0; 0; 0; 0; 0; 0; 0])
             "velocity" connected _ true eq_refl).
  - split; [reflexivity |].
    exact (switchOperationMode_result
             (device_failing (fun c => match c with SetController _ => true | _ => false end))
             "velocity" connected _ false eq_refl).
Defined.

(** ** A velocity goal goes out unclamped after a failed [init] *)

(** C4, on a device that opens and then times out on the first
    [GetAxisMaxVelocity]: [srvCallback_Init] answers a failure but has set
    [isInitialized_], and [max_velocities_] stays empty; a second [init]
    answers success without asking again.  After a switch to velocity
    mode a raw command of 10 rad/s for the knuckle is accepted, the loop of
    [clampVelocities] runs over no axis, and the tick sends the stored
    velocities as they are: 572.96 degrees per second for the knuckle,
    on a hand whose axes turn at 100 degrees per second at most. *)
Theorem updateSdh_sends_unclamped_velocity :
  let dev := device_answering_late in
  let w0 := start example_node in
  let w1 := world_of (run unrounded dev (Main SrvInit) w0) in
  let w2 := world_of (run unrounded dev (Main SrvInit) w1) in
  let w3 := world_of (run unrounded dev
                        (Main (SrvSetOperationMode "velocity")) w2) in
  let w := world_of (run unrounded dev
                       (Main (TopicSetVelocitiesRaw [10; 0; 0; 0; 0; 0; 0]%Q))
                       w3) in
  reachable unrounded dev w /\
  (exists w', srvCallback_Init dev w0 =
                Done {| success := false; message := "timeout" |} w') /\
  (exists w', srvCallback_Init dev w1 =
                Done {| success := true;
                        message := "sdh already initialized" |} w') /\
  (isInitialized_ (node w) = true /\
   operationMode_ (node w) = "velocity" /\
   hasNewGoal_ (node w) = true /\
   length (velocities_ (node w)) = 7%nat /\
   max_velocities_ (node w) = []) /\
  sdh_doubles dev (calls_of (log w)) GetAxisMaxVelocity =
    Returns (replicate 7 100%Q) /\
  exists w' after v,
    updateSdh unrounded dev w = Done tt w' /\
    log w' =
      log w ++ [Call Stop true] ++
      Call (SetAxisTargetVelocity (axes_ (node w)) (velocities_ (node w))) true
      :: after /\
    Forall not_velocity_call after /\
    velocities_ (node w) !! 0%nat = Some v /\
    v = to_degrees unrounded 10 /\
    (572 < v)%Q.
Proof.
  intros dev w0 w1 w2 w3 w.
  split.
  { do 4 apply reachable_run.
    exact (reachable_start unrounded dev _ _ _ _ init_example). }
  split; [eexists; vm_compute; reflexivity |].
  split; [eexists; vm_compute; reflexivity |].
  split; [repeat split |].
  split; [reflexivity |].
  exists (world_of (updateSdh unrounded dev w)).
  exists (drop (length (log w) + 2)
            (log (world_of (updateSdh unrounded dev w)))).
  eexists.
  split; [vm_compute; reflexivity |].
  split; [vm_compute; reflexivity |].
  split; [vm_compute; repeat constructor; intros ? ? ?; discriminate |].
  split; [vm_compute; reflexivity |].
  split; [vm_compute; reflexivity |].
  vm_compute. reflexivity.
Qed.

(** The scenario of the specification: in velocity mode a raw command of
    10 rad/s for the knuckle arrives; the maximum velocity of every axis is
    100 degrees per second. *)
Lemma updateSdh_clamps_velocities_witness :
  let dev := device_reporting [0; 0; 0; 0; 0; 0; 0] in
  let w := world_of (run_all unrounded dev
                       [Main SrvInit;
                        Main (SrvSetOperationMode "velocity");
                        Main (TopicSetVelocitiesRaw [10; 0; 0; 0; 0; 0; 0]%Q)]
                       (start example_node)) in
  (isInitialized_ (node w) = true /\
   hasNewGoal_ (node w) = true /\
   operationMode_ (node w) = "velocity" /\
   length (velocities_ (node w)) = 7%nat /\
   length (max_velocities_ (node w)) = 7%nat) /\
  exists sent before after,
    log (world_of (updateSdh unrounded dev w)) =
      log w ++ before ++
      Call (SetAxisTargetVelocity (axes_ (node w)) sent) true :: after /\
    Forall not_velocity_call before /\ Forall not_velocity_call after /\
    length sent = 7%nat /\
    forall i v m,
      velocities_ (node w) !! i = Some v ->
      max_velocities_ (node w) !! i = Some m ->
      exists s, sent !! i = Some s /\
                (- m <= s <= m)%Q /\
                ((- m <= v <= m)%Q -> s = v).
Proof.
  split; [repeat split |].
  apply (updateSdh_clamps_velocities unrounded (device_reporting [0; 0; 0; 0; 0; 0; 0]));
    try reflexivity.
  intros m Hm. vm_compute in Hm.
  repeat (destruct Hm as [<- | Hm]; [discriminate |]). destruct Hm.
Defined.

(** In that scenario the knuckle is sent 100 degrees per second, not the
    572.96 the command converts to. *)
Lemma updateSdh_clamps_knuckle :
  let dev := device_reporting [0; 0; 0; 0; 0; 0; 0] in
  let w := world_of (run_all unrounded dev
                       [Main SrvInit;
                        Main (SrvSetOperationMode "velocity");
                        Main (TopicSetVelocitiesRaw [10; 0; 0; 0; 0; 0; 0]%Q)]
                       (start example_node)) in
  velocities_ (node w) !! 0%nat = Some (to_degrees unrounded 10) /\
  exists rest,
    In (Call (SetAxisTargetVelocity [0; 1; 2; 3; 4; 5; 6] (100%Q :: rest)) true)
       (log (world_of (updateSdh unrounded dev w))).
Proof.
  split; [vm_compute; reflexivity |].
  eexists. vm_compute. repeat (first [left; reflexivity | right]).
Qed.

Lemma unrounded_has_no_error (x : Q) : (Qabs (unrounded x - x) <= 0 * Qabs x)%Q.
Proof.
  unfold unrounded. assert (Heq : (x - x == 0)%Q) by ring.
  rewrite Heq, Qmult_0_l. apply Qle_refl.
Qed.

Lemma nearest_integer (y : Q) :
  (Qabs (inject_Z (Qfloor (y + (1 # 2))) - y) <= 1 # 2)%Q.
Proof.
  pose proof (Qfloor_le (y + (1 # 2))) as Hlo.
  pose proof (Qlt_floor (y + (1 # 2))) as Hhi.
  rewrite inject_Z_plus in Hhi. change (inject_Z 1) with 1%Q in Hhi.
  apply Qabs_case; intros _; lra.
Qed.

(** A rational [n # d] is at least [2 ^ (log2 |n| - log2 d - 1)] in
    absolute value. *)
Lemma size_of_Q (n : Z) (d : positive) :
  n <> 0 ->
  (2 ^ (Z.log2 (Z.abs n) - Z.log2 (Zpos d) - 1) <= Qabs (n # d))%Q.
Proof.
  intros Hn.
  assert (Ha : 0 < Z.abs n) by lia.
  destruct (Z.log2_spec _ Ha) as [Hlo _].
  destruct (Z.log2_spec (Zpos d) eq_refl) as [_ Hhi].
  pose proof (Z.log2_nonneg (Z.abs n)) as Ha0.
  pose proof (Z.log2_nonneg (Zpos d)) as Hb0.
  set (a := Z.log2 (Z.abs n)) in *. set (b := Z.log2 (Zpos d)) in *.
  assert (H2 : ~ (2 == 0)%Q) by (intros H; discriminate H).
  assert (Hlo' : (2 ^ a <= inject_Z (Z.abs n))%Q).
  { rewrite <- (Zpower_Qpower 2 a Ha0). rewrite <- Zle_Qle. exact Hlo. }
  assert (Hhi' : (inject_Z (Zpos d) < 2 ^ (b + 1))%Q).
  { rewrite <- (Zpower_Qpower 2 (b + 1)) by lia. rewrite <- Zlt_Qlt.
    replace (b + 1) with (Z.succ b) by lia. exact Hhi. }
  assert (Hsplit : (2 ^ a == 2 ^ (a - b - 1) * 2 ^ (b + 1))%Q).
  { rewrite <- Qpower_plus by exact H2.
    replace (a - b - 1 + (b + 1)) with a by lia. reflexivity. }
  pose proof (Qpower_0_lt 2 (a - b - 1) eq_refl) as Hpos.
  change (Qabs (n # d)) with (Z.abs n # d).
  rewrite (Qmake_Qdiv (Z.abs n) d).
  assert (Hd : (0 < inject_Z (Zpos d))%Q) by (rewrite <- (Zlt_Qlt 0); lia).
  apply Qle_shift_div_l; [exact Hd |].
  generalize dependent (2 ^ (a - b - 1))%Q. generalize dependent (2 ^ (b + 1))%Q.
  generalize dependent (2 ^ a)%Q. generalize dependent (inject_Z (Z.abs n)).
  generalize dependent (inject_Z (Zpos d)).
  intros D HD N A HA P HP HAP S HS. nra.
Qed.

(** [round_to_53_bits] satisfies the standard model with the unit
    roundoff of binary64. *)
Lemma round_to_53_bits_error (x : Q) :
  (Qabs (round_to_53_bits x - x) <= (1 # 2 ^ 53) * Qabs x)%Q.
Proof.
  unfold round_to_53_bits. destruct x as [n d]. simpl Qnum. simpl Qden.
  destruct (n =? 0) eqn:Hn.
  - apply Z.eqb_eq in Hn. subst n.
    assert (H0 : (0 - (0 # d) == 0)%Q) by reflexivity.
    rewrite H0. change (Qabs (0 # d)) with (0 # d).
    assert (H1 : ((0 # d) == 0)%Q) by reflexivity. rewrite H1, Qmult_0_r.
    apply Qle_refl.
  - apply Z.eqb_neq in Hn.
    pose proof (size_of_Q n d Hn) as Hsize.
    set (a := Z.log2 (Z.abs n)) in *. set (b := Z.log2 (Zpos d)) in *.
    set (u := (2 ^ (a - b - 54))%Q).
    assert (H2 : ~ (2 == 0)%Q) by (intros H; discriminate H).
    assert (Hu : (0 < u)%Q) by (apply Qpower_0_lt; reflexivity).
    assert (Hsplit : (2 ^ (a - b - 1) == u * 2 ^ 53)%Q).
    { unfold u. rewrite <- Qpower_plus by exact H2.
      replace (a - b - 54 + 53) with (a - b - 1) by lia. reflexivity. }
    pose proof (nearest_integer ((n # d) / u)) as Hnear.
    assert (Heq : (inject_Z (Qfloor ((n # d) / u + (1 # 2))) * u - (n # d) ==
                   (inject_Z (Qfloor ((n # d) / u + (1 # 2))) - (n # d) / u) * u)%Q).
    { field. lra. }
    rewrite Heq, Qabs_Qmult, (Qabs_pos u) by lra.
    rewrite Hsplit in Hsize.
    assert (H53 : (2 ^ 53 == inject_Z (2 ^ 53))%Q) by reflexivity.
    assert (Hc : ((1 # 2 ^ 53) == / inject_Z (2 ^ 53))%Q) by reflexivity.
    generalize dependent
      (Qabs (inject_Z (Qfloor ((n # d) / u + (1 # 2))) - (n # d) / u)).
    generalize dependent (Qabs (n # d)).
    intros X HX Y HY.
    assert (HYu : (Y * u <= (1 # 2) * u)%Q) by nra.
    assert (Hgoal : ((1 # 2) * u <= (1 # 2 ^ 53) * X)%Q).
    { rewrite H53 in HX.
      assert (Hk : ((1 # 2 ^ 53) * (u * inject_Z (2 ^ 53)) == u)%Q).
      { rewrite Hc. field. intros H; discriminate H. }
      assert (((1 # 2 ^ 53) * (u * inject_Z (2 ^ 53)) <= (1 # 2 ^ 53) * X)%Q).
      { apply Qmult_le_l; [reflexivity | exact HX]. }
      lra. }
    lra.
Qed.

(** The example goal through the two tables: with exact arithmetic it
    comes back unchanged, and with rounding to 53 bits within four
    roundings. *)
Lemma position_round_trip_witness :
  let sent := [0.5; 0; 0; 0; 0; 0; 0]%Q in
  let target rnd := (fun j => to_degrees rnd (nth j sent 0%Q)) <$> to_device_table in
  let back rnd := (fun i => to_radians rnd (nth i (target rnd) 0%Q)) <$> from_device_table in
  ((0 <= 1 # 2 ^ 53)%Q /\ DOF_ (node connected) = 7%nat) /\
  (install_target round_to_53_bits example_goal connected =
     Done tt {| node := with_targetAngles_ (target round_to_53_bits) (node connected);
                log := log connected |} /\
   (forall w', axes_to_joints round_to_53_bits (target round_to_53_bits)
                 (resize_ 0%Q 7 []) w' = Done (back round_to_53_bits) w') /\
   Forall2 (within (round_trip_bound (1 # 2 ^ 53))) (back round_to_53_bits) sent) /\
  Forall2 Qeq (back unrounded) sent.
Proof.
  intros sent target back.
  destruct (position_round_trip round_to_53_bits (1 # 2 ^ 53) 0.5 0 0 0 0 0 0 connected)
    as (Hinstall & Hback & Hwithin & _);
    [discriminate | exact round_to_53_bits_error | reflexivity |].
  destruct (position_round_trip unrounded 0 0.5 0 0 0 0 0 0 connected
              (Qle_refl 0) unrounded_has_no_error eq_refl)
    as (_ & _ & Hexact & _).
  split; [split; [discriminate | reflexivity] |].
  split; [split; [exact Hinstall | split; [exact Hback | exact Hwithin]] |].
  eapply Forall2_impl; [exact Hexact |].
  intros b p Hb. apply within_exact.
  eapply within_Qeq; [| reflexivity | exact Hb].
  unfold round_trip_bound. ring.
Defined.

(** The scenario of the specification: the knuckle at 0.5 rad is stored
    as 28.6479 degrees; rounding to 53 bits changes the stored value, by
    less than one part in 2^53. *)
Lemma to_degrees_example :
  (28.6478 < to_degrees unrounded 0.5 < 28.6480)%Q /\
  ~ (to_degrees round_to_53_bits 0.5 == to_degrees unrounded 0.5)%Q /\
  (Qabs (to_degrees round_to_53_bits 0.5 - to_degrees unrounded 0.5) <=
   (1 # 2 ^ 53) * to_degrees unrounded 0.5)%Q.
Proof.
  split; [split; reflexivity |].
  split; [intros H; vm_compute in H; discriminate H |].
  vm_compute. discriminate.
Qed.

(** A request for the unsupported mode "effort" while a goal is pending:
    the request fails, the mode stays "position", the goal is gone. *)
Lemma srvCallback_SetOperationMode_discards_goal_witness :
  let dev := device_reporting [0; 0; 0; 0; 0; 0; 0] in
  let w := world_of (executeCB unrounded dev example_goal [] connected) in
  let o := srvCallback_SetOperationMode dev "effort" w in
  hasNewGoal_ (node w) = true /\
  (exists w', o = Done {| success := false; message := "" |} w') /\
  hasNewGoal_ (node (world_of o)) = false /\
  operationMode_ (node (world_of o)) = operationMode_ (node w).
Proof.
  intros dev w o.
  destruct (srvCallback_SetOperationMode_discards_goal dev "effort" w)
    as (Hclear & _ & Hmode & _).
  assert (Ho : o = Done {| success := false; message := "" |} (world_of o))
    by (vm_compute; reflexivity).
  split; [reflexivity |]. split; [eexists; exact Ho |].
  split; [exact Hclear |].
  exact (Hmode _ _ Ho eq_refl).
Defined.

(** The node after [init] and a successful [srvCallback_Init]. *)
Lemma isError_never_set_witness :
  let dev := device_reporting [0; 0; 0; 0; 0; 0; 0] in
  let w := world_of (run unrounded dev (Main SrvInit) (start example_node)) in
  reachable unrounded dev w /\
  isError_ (node w) = false /\
  Forall diagnostics_ok (log w) /\
  (forall w', updateSdh unrounded dev w = Done tt w' ->
     exists before,
       log w' = log w ++ before ++
                [diagnostics_of (isInitialized_ (node w)) (nh_namespace (node w))] /\
       Forall not_diagnostics before).
Proof.
  intros dev w.
  assert (Hw : reachable unrounded dev w).
  { apply reachable_run. exact (reachable_start unrounded dev _ _ _ _ init_example). }
  split; [exact Hw |].
  exact (isError_never_set unrounded dev w Hw).
Defined.

(** * Instances of the further theorems *)

(** A velocity command for the node in position mode. *)
Lemma topicCallback_setVelocitiesRaw_rejects_witness :
  let data := [1; 0; 0; 0; 0; 0; 0]%Q in
  (isInitialized_ (node connected) = false \/
   length data <> length (velocities_ (node connected)) \/
   operationMode_ (node connected) <> "velocity") /\
  exists text,
    topicCallback_setVelocitiesRaw unrounded data connected =
    Done tt {| node := node connected;
               log := log connected ++ [RosError text] |}.
Proof.
  intros data.
  assert (H : isInitialized_ (node connected) = false \/
              length data <> length (velocities_ (node connected)) \/
              operationMode_ (node connected) <> "velocity")
    by (right; right; discriminate).
  split; [exact H |].
  exact (topicCallback_setVelocitiesRaw_rejects unrounded data connected H).
Defined.

(** The tick after [executeCB] has accepted the example goal. *)
Lemma updateSdh_dispatches_position_witness :
  let dev := device_reporting [0; 0; 0; 0; 0; 0; 0] in
  let w := world_of (executeCB unrounded dev example_goal [] connected) in
  (isInitialized_ (node w) = true /\
   hasNewGoal_ (node w) = true /\
   operationMode_ (node w) = "position") /\
  dispatched w (world_of (updateSdh unrounded dev w))
    [Stop;
     SetAxisTargetAngle (axes_ (node w)) (targetAngles_ (node w));
     MoveHand false].
Proof.
  intros dev w.
  split; [repeat split |].
  exact (updateSdh_dispatches_position unrounded dev w eq_refl eq_refl eq_refl).
Defined.

(** In velocity mode a raw command of 10 rad/s for the knuckle and
    0.5 rad/s for the joint [sdh_thumb_2_joint] arrives: at the node that
    holds the maximum velocities of the device, 100 degrees per second for
    each axis, and at the node whose [init] failed on
    [GetAxisMaxVelocity], which holds none. *)
Lemma velocity_command_reaches_device_witness :
  let data := [10; 0.5; 0; 0; 0; 0; 0]%Q in
  let converted :=
    (fun j => to_degrees unrounded (nth j data 0%Q)) <$> to_device_table in
  let sends dev w sent :=
    (isInitialized_ (node w) = true /\
     operationMode_ (node w) = "velocity" /\
     hasNewGoal_ (node w) = false /\
     length (velocities_ (node w)) = 7%nat /\
     (length (max_velocities_ (node w)) <= 7)%nat) /\
    exists w1,
      topicCallback_setVelocitiesRaw unrounded data w = Done tt w1 /\
      hasNewGoal_ (node w1) = true /\
      dispatched w1 (world_of (updateSdh unrounded dev w1))
        [Stop; SetAxisTargetVelocity (axes_ (node w)) sent] in
  let dev := device_reporting [0; 0; 0; 0; 0; 0; 0] in
  let w := world_of (run_all unrounded dev
                       [Main SrvInit; Main (SrvSetOperationMode "velocity")]
                       (start example_node)) in
  let late := device_answering_late in
  let v := world_of (run_all unrounded late
                       [Main SrvInit; Main (SrvSetOperationMode "velocity")]
                       (start example_node)) in
  sends dev w
    (zip_with (fun v m => ToRange v (- m)%Q m) converted
       (replicate 7 100%Q)) /\
  sends late v converted.
Proof.
  intros data converted sends dev w late v.
  assert (Hw : (length (max_velocities_ (node w)) <= 7)%nat)
    by (vm_compute; lia).
  assert (Hv : (length (max_velocities_ (node v)) <= 7)%nat)
    by (vm_compute; lia).
  split.
  - split; [repeat split; exact Hw |].
    exact (velocity_command_reaches_device unrounded dev 10 0.5 0 0 0 0 0 w
             eq_refl eq_refl eq_refl eq_refl Hw).
  - split; [repeat split; exact Hv |].
    exact (velocity_command_reaches_device unrounded late 10 0.5 0 0 0 0 0 v
             eq_refl eq_refl eq_refl eq_refl Hv).
Defined.

(** A goal that lists the joints in the reverse order. *)
Definition reversed_goal : Goal :=
  {| joint_names := ["sdh_finger_13_joint"; "sdh_finger_12_joint";
                     "sdh_thumb_3_joint"; "sdh_thumb_2_joint";
                     "sdh_finger_23_joint"; "sdh_finger_22_joint";
                     "sdh_knuckle_joint"];
     points := [[7; 6; 5; 4; 3; 2; 1]%Q] |}.

Lemma install_target_any_order_witness :
  let positions := [7; 6; 5; 4; 3; 2; 1]%Q in
  let xs := [1; 2; 3; 4; 5; 6; 7]%Q in
  (DOF_ (node connected) = 7%nat /\
   points reversed_goal = [positions] /\
   NoDup (joint_names reversed_goal) /\
   Forall2 (goal_position (joint_names reversed_goal) positions)
     axis_joint_names xs) /\
  install_target unrounded reversed_goal connected =
  Done tt {| node := with_targetAngles_ (to_degrees unrounded <$> xs)
                       (node connected);
             log := log connected |}.
Proof.
  intros positions xs.
  assert (Hdup : NoDup (joint_names reversed_goal)).
  { apply (bool_decide_unpack _). vm_compute. exact Logic.I. }
  assert (Hall : Forall2 (goal_position (joint_names reversed_goal) positions)
                   axis_joint_names xs).
  { unfold axis_joint_names, xs.
    repeat match goal with
           | |- Forall2 _ (_ :: _) (_ :: _) => constructor
           | |- Forall2 _ [] [] => constructor
           end.
    - exists 6%nat. split; reflexivity.
    - exists 5%nat. split; reflexivity.
    - exists 4%nat. split; reflexivity.
    - exists 3%nat. split; reflexivity.
    - exists 2%nat. split; reflexivity.
    - exists 1%nat. split; reflexivity.
    - exists 0%nat. split; reflexivity. }
  split; [repeat split; assumption |].
  exact (install_target_any_order unrounded reversed_goal positions [] xs
           connected eq_refl eq_refl Hdup Hall).
Defined.

(** A goal in which the name of one joint is misspelt: the axis of
    [sdh_finger_13_joint] is sent to the position the goal gives first,
    that of the knuckle. *)
Definition misspelt_goal : Goal :=
  {| joint_names := ["sdh_knuckle_joint"; "sdh_thumb_2_joint";
                     "sdh_thumb_3_joint"; "sdh_finger_12_joint";
                     "sdh_finger_13_join"; "sdh_finger_22_joint";
                     "sdh_finger_23_joint"];
     points := [[0.5; 0; 0; 0; 0.25; 0; 0]%Q] |}.

Lemma install_target_missing_joint_witness :
  let positions := [0.5; 0; 0; 0; 0.25; 0; 0]%Q in
  let w' := world_of (install_target unrounded misspelt_goal connected) in
  (points misspelt_goal = [positions] /\
   install_target unrounded misspelt_goal connected = Done tt w' /\
   axis_joint_names !! 6%nat = Some "sdh_finger_13_joint" /\
   "sdh_finger_13_joint" ∉ joint_names misspelt_goal) /\
  exists x,
    positions !! 0%nat = Some x /\
    targetAngles_ (node w') !! 6%nat = Some (to_degrees unrounded x).
Proof.
  intros positions w'.
  assert (Hrun : install_target unrounded misspelt_goal connected = Done tt w')
    by (vm_compute; reflexivity).
  assert (Hnot : "sdh_finger_13_joint" ∉ joint_names misspelt_goal).
  { apply (bool_decide_unpack _). vm_compute. exact Logic.I. }
  split; [repeat split; assumption |].
  exact (install_target_missing_joint unrounded misspelt_goal positions []
           connected w' 6 "sdh_finger_13_joint" eq_refl Hrun eq_refl Hnot).
Defined.



(** A device that accepts every command and throws when it is asked for
    the maximum velocities. *)
Definition device_without_limits : cSDH :=
  {| sdh_command := fun _ _ => Returns tt;
     sdh_doubles := fun _ c =>
       match c with
       | GetAxisMaxVelocity => Throws "timeout"
       | _ => Returns (replicate 7 0%Q)
       end;
     sdh_states := fun _ _ => Returns [0; 0; 0; 0; 0; 0; 0] |}.

Lemma srvCallback_Init_fails_after_open_witness :
  let dev := device_without_limits in
  let w := start example_node in
  (isInitialized_ (node w) = false /\
   (sdhdevicetype_ (node w) = "RS232" \/
    sdhdevicetype_ (node w) = "PCAN" \/
    sdhdevicetype_ (node w) = "TCP") /\
   (forall c, sdh_command dev (calls_of (log w)) c = Returns tt) /\
   (forall past, sdh_doubles dev past GetAxisMaxVelocity = Throws "timeout")) /\
  exists w',
    srvCallback_Init dev w = Done {| success := false; message := "timeout" |} w' /\
    isInitialized_ (node w') = true /\
    max_velocities_ (node w') = max_velocities_ (node w) /\
    srvCallback_Init dev w' =
      Done {| success := true; message := "sdh already initialized" |}
           {| node := node w';
              log := log w' ++ [RosWarn "...sdh already initialized..."] |}.
Proof.
  intros dev w.
  assert (Htype : sdhdevicetype_ (node w) = "RS232" \/
                  sdhdevicetype_ (node w) = "PCAN" \/
                  sdhdevicetype_ (node w) = "TCP")
    by (right; right; reflexivity).
  split; [repeat split; exact Htype |].
  exact (srvCallback_Init_fails_after_open dev w "timeout" eq_refl Htype
           (fun _ => eq_refl) (fun _ => eq_refl)).
Defined.

(** A tick of the connected node. *)
Lemma updateSdh_publishes_witness :
  let dev := device_reporting [0; 0; 0; 0; 0; 0; 0] in
  let w' := world_of (updateSdh unrounded dev connected) in
  (isInitialized_ (node connected) = true /\
   updateSdh unrounded dev connected = Done tt w') /\
  (7 <= DOF_ (node connected))%nat /\
  exists new,
    log w' = log connected ++ new /\
    tick_messages unrounded (node connected) (publications new).
Proof.
  intros dev w'.
  assert (Hrun : updateSdh unrounded dev connected = Done tt w')
    by (vm_compute; reflexivity).
  split; [split; [reflexivity | exact Hrun] |].
  exact (updateSdh_publishes unrounded dev connected w' eq_refl Hrun).
Defined.


(** The example goal, with one tick during each sleep. *)
Lemma executeCB_one_result_witness :
  let dev := device_reporting [0; 0; 0; 0; 0; 0; 0] in
  let w' := world_of (executeCB unrounded dev example_goal
                        [one_tick; one_tick] connected) in
  executeCB unrounded dev example_goal [one_tick; one_tick] connected =
    Done tt w' /\
  one_result connected w'.
Proof.
  intros dev w'.
  assert (Hrun : executeCB unrounded dev example_goal [one_tick; one_tick]
                   connected = Done tt w')
    by (vm_compute; reflexivity).
  split; [exact Hrun |].
  exact (executeCB_one_result unrounded dev example_goal [one_tick; one_tick]
           connected w' Hrun).
Defined.

(** The calls the examples make fail. *)
Definition is_SetAxisEnable (c : DevCall) : bool :=
  match c with SetAxisEnable _ => true | _ => false end.

Definition is_SetAxisMotorCurrent (c : DevCall) : bool :=
  match c with SetAxisMotorCurrent _ => true | _ => false end.

(** An emergency stop on a device that stops and then throws on
    [SetAxisEnable]: the motor current is not set, and the answer is the
    failure "timeout". *)
Lemma srvCallback_EmergencyStop_returns_witness :
  let dev := device_failing is_SetAxisEnable in
  exists res new,
    srvCallback_EmergencyStop dev connected =
      Done res {| node := with_isInitialized_ false (node connected);
                  log := log connected ++ new |} /\
    calls_of new = [EmergencyStop; SetAxisEnable 0%Q] /\
    res = {| success := false; message := "timeout" |} /\
    last new = Some (RosError "An exception was caught: timeout").
Proof.
  intros dev.
  destruct (srvCallback_EmergencyStop_returns dev connected)
    as (res & new & Hrun & Hcalls & _ & _ & Hfail).
  exists res, new. split; [exact Hrun |]. split; [exact Hcalls |].
  apply (Hfail "timeout"). right. left. split; reflexivity.
Defined.

(** A disconnect on a device that throws on [SetAxisMotorCurrent]: the
    connection is not closed. *)
Lemma srvCallback_Disconnect_returns_witness :
  let dev := device_failing is_SetAxisMotorCurrent in
  exists res new,
    srvCallback_Disconnect dev connected =
      Done res {| node := with_isInitialized_ false (node connected);
                  log := log connected ++ new |} /\
    calls_of new = [SetAxisEnable 0%Q; SetAxisMotorCurrent 0%Q] /\
    ~ In Close (calls_of new) /\
    res = {| success := false; message := "timeout" |} /\
    last new = Some (RosError "An exception was caught: timeout").
Proof.
  intros dev.
  destruct (srvCallback_Disconnect_returns dev connected)
    as (res & new & Hrun & Hcalls & Hclose & _ & _ & Hfail).
  exists res, new. split; [exact Hrun |]. split; [exact Hcalls |].
  split; [intros H; apply Hclose in H; discriminate H |].
  apply (Hfail "timeout"). right. left. split; reflexivity.
Defined.

(** Power on at the node that was never initialized, on a device that
    accepts the calls, and power off on a device that throws on
    [SetAxisEnable]. *)
Lemma srvCallback_MotorPower_returns_witness :
  let dev := device_reporting [0; 0; 0; 0; 0; 0; 0] in
  let bad := device_failing is_SetAxisEnable in
  let w := start example_node in
  (exists res new,
     srvCallback_MotorPowerOn dev w =
       Done res {| node := node w; log := log w ++ new |} /\
     calls_of new = [SetAxisEnable 1%Q; SetAxisMotorCurrent 0.5%Q] /\
     success res = true /\ message res = "Motor ON") /\
  (exists res new,
     srvCallback_MotorPowerOff bad w =
       Done res {| node := node w; log := log w ++ new |} /\
     calls_of new = [SetAxisEnable 0%Q] /\
     res = {| success := false; message := "timeout" |} /\
     last new = Some (RosError "An exception was caught: timeout")).
Proof.
  intros dev bad w. split.
  - destruct (srvCallback_MotorPower_returns dev w)
      as [(res & new & Hrun & Hcalls & Hok & Hmsg & _) _].
    exists res, new. split; [exact Hrun |]. split; [exact Hcalls |].
    assert (Hres : success res = true) by (apply Hok; reflexivity).
    split; [exact Hres | exact (Hmsg Hres)].
  - destruct (srvCallback_MotorPower_returns bad w)
      as [_ (res & new & Hrun & Hcalls & _ & _ & Hfail)].
    exists res, new. split; [exact Hrun |]. split; [exact Hcalls |].
    apply (Hfail "timeout"). left. reflexivity.
Defined.
